(** * Serializers for inference endpoints: a shallow embedding

    The development follows [src/sagemaker/serializers.py]: the three
    encoders [CSVSerializer], [NumpySerializer] and [JSONSerializer], each
    with its [CONTENT_TYPE] and its [serialize] method.

    Python values are an inductive type, a call that may raise is a
    computation in the [result] monad, and the duck-typed probes of the
    source ([hasattr], [isinstance], [len], indexing, iteration) are total
    functions on that type.  Strings are sequences of code points below 256
    and native arrays have an integer element type; floating point values
    are outside the embedding. *)

From Stdlib Require Import ZArith List String Ascii Bool Lia.
From Stdlib Require Import Strings.Byte DecimalString Decimal DecimalPos.
Import ListNotations.

Local Open Scope string_scope.
Local Open Scope list_scope.

(** ** Python values *)

Module Py.

(** Element types of a native array. *)
Inductive dtype := int8 | int16 | int32 | int64 | uint8 | uint16 | uint32 | uint64.

(** A native array: element type, shape, and the elements in row-major
    order.  The element at flat position [i] is [nth i nd_data 0]. *)
Record ndarray := mk_ndarray
  { nd_dtype : dtype;
    nd_shape : list nat;
    nd_data : list Z }.

#[warnings="-register-all"]
Inductive pyval :=
| PyNone
| PyBool (b : bool)
| PyInt (z : Z)
| PyStr (s : string)
| PyBytes (b : list byte)
| PyList (items : list pyval)
| PyTuple (items : list pyval)
| PyDict (items : list (pyval * pyval))
| PyNdarray (a : ndarray)
| PyNpInt (d : dtype) (z : Z)
| PyStream (content : pyval).

(** [PyDict] keeps the items in insertion order.  [PyNpInt] is a scalar
    taken out of a native array.  [PyStream c] is an object whose only
    capability is [read()], which returns [c]. *)

Inductive pytype :=
| NoneType | bool_t | int_t | str_t | bytes_t | list_t | tuple_t | dict_t
| ndarray_t | npint_t | stream_t.

Definition type (data : pyval) : pytype :=
  match data with
  | PyNone => NoneType
  | PyBool _ => bool_t
  | PyInt _ => int_t
  | PyStr _ => str_t
  | PyBytes _ => bytes_t
  | PyList _ => list_t
  | PyTuple _ => tuple_t
  | PyDict _ => dict_t
  | PyNdarray _ => ndarray_t
  | PyNpInt _ _ => npint_t
  | PyStream _ => stream_t
  end.

Definition pytype_eqb (a b : pytype) : bool :=
  match a, b with
  | NoneType, NoneType | bool_t, bool_t | int_t, int_t | str_t, str_t
  | bytes_t, bytes_t | list_t, list_t | tuple_t, tuple_t | dict_t, dict_t
  | ndarray_t, ndarray_t | npint_t, npint_t | stream_t, stream_t => true
  | _, _ => false
  end.

(** ** Exceptions and the result of a call *)

Inductive exc_class := ValueError | TypeError | KeyError | IndexError | csv_Error.

(** An exception: its class, its message, and the type object some
    messages carry as a second argument. *)
Inductive pyexc := Exc (cls : exc_class) (msg : string) (ty : option pytype).

Definition exc_cls (e : pyexc) : exc_class := let 'Exc c _ _ := e in c.

Inductive result (A : Type) :=
| Return (a : A)
| Raise (e : pyexc).

Arguments Return {A} a.
Arguments Raise {A} e.

Definition bind {A B : Type} (c : result A) (k : A -> result B) : result B :=
  match c with
  | Return a => k a
  | Raise e => Raise e
  end.

Notation "x <- c ;; k" := (bind c (fun x => k))
  (at level 61, c at next level, right associativity).

(** A list comprehension [[f(x) for x in l]]: left to right, stopping at
    the first call that raises. *)
Definition mapM {A B : Type} (f : A -> result B) : list A -> result (list B) :=
  fix go (l : list A) : result (list B) :=
    match l with
    | [] => Return []
    | x :: t => y <- f x ;; ys <- go t ;; Return (y :: ys)
    end.

(** ** Native arrays *)

Definition prod_shape (shape : list nat) : nat := fold_right Nat.mul 1 shape.

Definition nd_size (a : ndarray) : nat := prod_shape (nd_shape a).

Definition nd_elems (a : ndarray) : list Z :=
  map (fun i => nth i (nd_data a) 0%Z) (seq 0 (nd_size a)).

(** [numpy.ndarray.flatten]: one dimension, row-major order. *)
Definition nd_flatten (a : ndarray) : ndarray :=
  mk_ndarray (nd_dtype a) [nd_size a] (nd_elems a).

Definition nd_block (rest : list nat) (elems : list Z) (i : nat) : list Z :=
  firstn (prod_shape rest) (skipn (i * prod_shape rest) elems).

(** [a[i]] for [i] within the first axis of an array of dimension >= 1. *)
Definition nd_item (a : ndarray) (i : nat) : pyval :=
  match nd_shape a with
  | [] => PyNone
  | [_] => PyNpInt (nd_dtype a) (nth i (nd_data a) 0%Z)
  | _ :: rest => PyNdarray (mk_ndarray (nd_dtype a) rest (nd_block rest (nd_data a) i))
  end.

Fixpoint tolist_aux (shape : list nat) (elems : list Z) : pyval :=
  match shape with
  | [] => PyInt (nth 0 elems 0%Z)
  | n :: rest => PyList (map (fun i => tolist_aux rest (nd_block rest elems i)) (seq 0 n))
  end.

(** [numpy.ndarray.tolist]: nested lists of Python ints, a bare int for a
    0-dimensional array. *)
Definition nd_tolist (a : ndarray) : pyval := tolist_aux (nd_shape a) (nd_data a).

(** ** The probes of the source *)

(** [hasattr], for the five attribute names the encoders probe. *)
Definition hasattr (data : pyval) (name : string) : bool :=
  match data with
  | PyStream _ => name =? "read"
  | PyStr _ | PyBytes _ | PyTuple _ =>
      (name =? "__iter__") || (name =? "__getitem__") || (name =? "__len__")
  | PyList _ | PyDict _ | PyNdarray _ =>
      (name =? "__iter__") || (name =? "__getitem__") || (name =? "__len__")
      || (name =? "__setitem__")
  | PyNpInt _ _ => name =? "__getitem__"
  | PyNone | PyBool _ | PyInt _ => false
  end.

Definition isinstance (data : pyval) (t : pytype) : bool := pytype_eqb (type data) t.

(** [data.read()] of a stream. *)
Definition read (data : pyval) : result pyval :=
  match data with
  | PyStream c => Return c
  | _ => Raise (Exc TypeError "object has no attribute read" (Some (type data)))
  end.

(** [len(data)]. *)
Definition len (data : pyval) : result nat :=
  match data with
  | PyStr s => Return (String.length s)
  | PyBytes b => Return (List.length b)
  | PyList l | PyTuple l => Return (List.length l)
  | PyDict kvs => Return (List.length kvs)
  | PyNdarray a =>
      match nd_shape a with
      | [] => Raise (Exc TypeError "len() of unsized object" None)
      | n :: _ => Return n
      end
  | _ => Raise (Exc TypeError "object has no len()" (Some (type data)))
  end.

Definition num_of (v : pyval) : option Z :=
  match v with
  | PyBool b => Some (if b then 1 else 0)%Z
  | PyInt z | PyNpInt _ z => Some z
  | _ => None
  end.

Definition bytes_eqb (a b : list byte) : bool :=
  if list_eq_dec Byte.byte_eq_dec a b then true else false.

(** Equality of dictionary keys: numbers compare by value ([True == 1]),
    strings, bytes and tuples by content. *)
Fixpoint key_eqb (a b : pyval) : bool :=
  match a, b with
  | PyNone, PyNone => true
  | PyStr s, PyStr t => String.eqb s t
  | PyBytes s, PyBytes t => bytes_eqb s t
  | PyTuple l, PyTuple m =>
      (fix go (l m : list pyval) : bool :=
         match l, m with
         | [], [] => true
         | x :: l', y :: m' => key_eqb x y && go l' m'
         | _, _ => false
         end) l m
  | _, _ =>
      match num_of a, num_of b with
      | Some x, Some y => Z.eqb x y
      | _, _ => false
      end
  end.

Fixpoint dict_get (kvs : list (pyval * pyval)) (k : pyval) : option pyval :=
  match kvs with
  | [] => None
  | (k', v) :: t => if key_eqb k' k then Some v else dict_get t k
  end.

(** [d[k] = v]: replace the value of an equal key in place, or append. *)
Fixpoint dict_setitem (kvs : list (pyval * pyval)) (k v : pyval) : list (pyval * pyval) :=
  match kvs with
  | [] => [(k, v)]
  | (k', v') :: t => if key_eqb k' k then (k', v) :: t else (k', v') :: dict_setitem t k v
  end.

(** Position in a sequence of length [n] that index [i] denotes. *)
Definition seq_index (n : nat) (i : Z) : result nat :=
  let j := (if i <? 0 then i + Z.of_nat n else i)%Z in
  if ((0 <=? j) && (j <? Z.of_nat n))%Z then Return (Z.to_nat j)
  else Raise (Exc IndexError "index out of range" None).

Definition char_str (c : ascii) : pyval := PyStr (String c EmptyString).
Definition byte_int (b : byte) : pyval := PyInt (Z.of_N (Byte.to_N b)).

(** [data[i]] for an integer index [i]. *)
Definition getitem (data : pyval) (i : Z) : result pyval :=
  match data with
  | PyStr s =>
      j <- seq_index (String.length s) i ;;
      Return (nth j (map char_str (list_ascii_of_string s)) PyNone)
  | PyBytes b =>
      j <- seq_index (List.length b) i ;; Return (nth j (map byte_int b) PyNone)
  | PyList l | PyTuple l =>
      j <- seq_index (List.length l) i ;; Return (nth j l PyNone)
  | PyDict kvs =>
      match dict_get kvs (PyInt i) with
      | Some v => Return v
      | None => Raise (Exc KeyError "key not found" None)
      end
  | PyNdarray a =>
      match nd_shape a with
      | [] => Raise (Exc IndexError "too many indices for array" None)
      | n :: _ => j <- seq_index n i ;; Return (nd_item a j)
      end
  | PyNpInt _ _ => Raise (Exc IndexError "invalid index to scalar variable." None)
  | _ => Raise (Exc TypeError "object is not subscriptable" (Some (type data)))
  end.

(** The elements [for x in data] goes through. *)
Definition iter (data : pyval) : result (list pyval) :=
  match data with
  | PyStr s => Return (map char_str (list_ascii_of_string s))
  | PyBytes b => Return (map byte_int b)
  | PyList l | PyTuple l => Return l
  | PyDict kvs => Return (map fst kvs)
  | PyNdarray a =>
      match nd_shape a with
      | [] => Raise (Exc TypeError "iteration over a 0-d array" None)
      | n :: _ => Return (map (nd_item a) (seq 0 n))
      end
  | _ => Raise (Exc TypeError "object is not iterable" (Some (type data)))
  end.

(** [numpy.ndarray.flatten(data)]. *)
Definition flatten (data : pyval) : pyval :=
  match data with
  | PyNdarray a => PyNdarray (nd_flatten a)
  | _ => data
  end.

(** [data.tolist()]. *)
Definition tolist (data : pyval) : pyval :=
  match data with
  | PyNdarray a => nd_tolist a
  | _ => data
  end.

(** [str(z)] of an int. *)
Definition str_int (z : Z) : string := NilZero.string_of_int (Z.to_int z).

(** What the interpreter and the array library provide and the source only
    calls: the text of a compound object, the array constructor, and the
    writer and reader of the binary array format. *)
Class Runtime := mk_runtime
  { py_repr : pyval -> string;
    np_array : pyval -> option string -> result ndarray;
    np_save : ndarray -> list byte;
    np_load : list byte -> option ndarray }.

(** [str(v)]. *)
Definition str `{Runtime} (v : pyval) : string :=
  match v with
  | PyNone => "None"
  | PyBool true => "True"
  | PyBool false => "False"
  | PyInt z | PyNpInt _ z => str_int z
  | PyStr s => s
  | _ => py_repr v
  end.

End Py.

Import Py.

(** ** The [csv] writer and the string methods the tabular encoder calls *)

Module Csv.

Definition quotechar : ascii := ascii_of_nat 34.
Definition delimiter : ascii := ","%char.
Definition CR : ascii := ascii_of_nat 13.
Definition LF : ascii := ascii_of_nat 10.
Definition lineterminator : string := String CR (String LF EmptyString).

Fixpoint mem (c : ascii) (chars : string) : bool :=
  match chars with
  | EmptyString => false
  | String d t => Ascii.eqb c d || mem c t
  end.

(** A character that makes the writer quote its field. *)
Definition special (c : ascii) : bool :=
  Ascii.eqb c delimiter || Ascii.eqb c quotechar || mem c lineterminator.

Fixpoint has_special (s : string) : bool :=
  match s with
  | EmptyString => false
  | String c t => special c || has_special t
  end.

Fixpoint double_quotes (s : string) : string :=
  match s with
  | EmptyString => EmptyString
  | String c t =>
      if Ascii.eqb c quotechar then String c (String c (double_quotes t))
      else String c (double_quotes t)
  end.

Definition quote_field (s : string) : string :=
  if has_special s
  then String quotechar (double_quotes s ++ String quotechar EmptyString)
  else s.

Section Writer.
Context `{Runtime}.

(** The text of a field: nothing for [None], the string itself, [str()] of
    anything else. *)
Definition field_text (v : pyval) : string :=
  match v with
  | PyNone => EmptyString
  | _ => Py.str v
  end.

(** The record of a row, before the line terminator.  A row of one empty
    field is written as a pair of quotes. *)
Definition record (fields : list pyval) : string :=
  let r := String.concat (String delimiter EmptyString)
             (map (fun v => quote_field (field_text v)) fields) in
  if ((0 <? List.length fields) && (String.length r =? 0))%nat
  then String quotechar (String quotechar EmptyString)
  else r.

(** [io.StringIO()]: an empty text buffer. *)
Definition StringIO : string := EmptyString.

(** [csv.writer(buffer, delimiter=",").writerow(data)]: the buffer after
    the row is written. *)
Definition writerow (buffer : string) (data : pyval) : result string :=
  match Py.iter data with
  | Return fields => Return (buffer ++ record fields ++ lineterminator)%string
  | Raise _ => Raise (Exc csv_Error "iterable expected" (Some (type data)))
  end.

End Writer.

(** [s.rstrip(chars)]. *)
Fixpoint rstrip (chars : string) (s : string) : string :=
  match s with
  | EmptyString => EmptyString
  | String c t =>
      match rstrip chars t with
      | EmptyString => if mem c chars then EmptyString else String c EmptyString
      | r => String c r
      end
  end.

(** [sep.join(l)]. *)
Definition join (sep : string) (l : list string) : string := String.concat sep l.

End Csv.

(** ** [json.dumps] with its default options *)

Module Json.

Definition quote : ascii := ascii_of_nat 34.
Definition backslash : ascii := ascii_of_nat 92.

Definition hex_digit (n : nat) : ascii :=
  nth n (list_ascii_of_string "0123456789abcdef") "0"%char.

Definition esc (c : ascii) : string := String backslash (String c EmptyString).

(** One character of a string, with [ensure_ascii]. *)
Definition escape_char (c : ascii) : string :=
  let n := nat_of_ascii c in
  if (n =? 34)%nat then esc quote
  else if (n =? 92)%nat then esc backslash
  else if (n =? 10)%nat then esc "n"
  else if (n =? 13)%nat then esc "r"
  else if (n =? 9)%nat then esc "t"
  else if (n =? 8)%nat then esc "b"
  else if (n =? 12)%nat then esc "f"
  else if ((32 <=? n) && (n <=? 126))%nat then String c EmptyString
  else (esc "u" ++ "00"
        ++ String (hex_digit (n / 16)) (String (hex_digit (n mod 16)) EmptyString))%string.

Fixpoint escape (s : string) : string :=
  match s with
  | EmptyString => EmptyString
  | String c t => (escape_char c ++ escape t)%string
  end.

Definition encode_basestring_ascii (s : string) : string :=
  String quote (escape s ++ String quote EmptyString).

(** The text of a dictionary key. *)
Definition key_text (k : pyval) : result string :=
  match k with
  | PyStr s => Return s
  | PyBool true => Return "true"
  | PyBool false => Return "false"
  | PyNone => Return "null"
  | PyInt z => Return (str_int z)
  | _ => Raise (Exc TypeError "keys must be str, int, float, bool or None" (Some (type k)))
  end.

Fixpoint encode (o : pyval) : result string :=
  match o with
  | PyStr s => Return (encode_basestring_ascii s)
  | PyNone => Return "null"
  | PyBool true => Return "true"
  | PyBool false => Return "false"
  | PyInt z => Return (str_int z)
  | PyList l | PyTuple l =>
      chunks <- mapM encode l ;;
      Return ("[" ++ String.concat ", " chunks ++ "]")%string
  | PyDict kvs =>
      chunks <- mapM (fun kv =>
                        k <- key_text (fst kv) ;;
                        v <- encode (snd kv) ;;
                        Return (encode_basestring_ascii k ++ ": " ++ v)%string) kvs ;;
      Return ("{" ++ String.concat ", " chunks ++ "}")%string
  | _ => Raise (Exc TypeError "Object is not JSON serializable" (Some (type o)))
  end.

Definition dumps (obj : pyval) : result pyval :=
  s <- encode obj ;; Return (PyStr s).

End Json.

(** ** The three encoders *)

(** [BaseSerializer]: a content type and a conversion of the data. *)
Module Base.

Class BaseSerializer (S : Type) :=
  { CONTENT_TYPE : string;
    serialize : S -> pyval -> result pyval }.

Arguments CONTENT_TYPE S {_}.

End Base.

Module CSVSerializer.

Definition CONTENT_TYPE : string := "text/csv".

Section Methods.
Context `{Runtime}.

(** Returns true if obj is iterable and subscriptable. *)
Definition _is_sequence_like (data : pyval) : bool :=
  hasattr data "__iter__" && hasattr data "__getitem__".

Definition _serialize_row (data : pyval) : result string :=
  match data with
  | PyStr s => Return s
  | _ =>
      let data := if isinstance data ndarray_t then flatten data else data in
      if hasattr data "__len__" then
        n <- len data ;;
        if (n =? 0)%nat then Raise (Exc ValueError "Cannot serialize empty array" None)
        else
          csv_buffer <- Csv.writerow Csv.StringIO data ;;
          Return (Csv.rstrip Csv.lineterminator csv_buffer)
      else Raise (Exc ValueError "Unable to handle input format: " (Some (type data)))
  end.

Definition serialize (data : pyval) : result pyval :=
  if hasattr data "read" then read data
  else
    let is_mutable_sequence_like :=
      _is_sequence_like data && hasattr data "__setitem__" in
    n <- len data ;;
    has_multiple_rows <-
      (if (0 <? n)%nat
       then first <- getitem data 0 ;; Return (_is_sequence_like first)
       else Return false) ;;
    if is_mutable_sequence_like && has_multiple_rows
    then
      rows <- iter data ;;
      encoded <- mapM _serialize_row rows ;;
      Return (PyStr (Csv.join (String Csv.LF EmptyString) encoded))
    else
      row <- _serialize_row data ;; Return (PyStr row).

End Methods.

(** The encoder object: it has no state. *)
Inductive t := new.

#[global] Instance serializer `{Runtime} : Base.BaseSerializer t :=
  {| Base.CONTENT_TYPE := CONTENT_TYPE;
     Base.serialize := fun _ => serialize |}.

End CSVSerializer.

Module NumpySerializer.

Definition CONTENT_TYPE : string := "application/x-npy".

(** The encoder object: the element type given at construction. *)
Record t := new { dtype : option string }.

Section Methods.
Context `{Runtime}.

(** Saves the array in a fresh byte buffer and returns the buffer's content. *)
Definition _serialize_array (array : ndarray) : pyval :=
  let buffer : list byte := [] in
  PyBytes (buffer ++ np_save array).

Definition serialize (self : t) (data : pyval) : result pyval :=
  match data with
  | PyNdarray a =>
      if (nd_size a =? 0)%nat
      then Raise (Exc ValueError "Cannot serialize empty array." None)
      else Return (_serialize_array a)
  | PyList l =>
      if (List.length l =? 0)%nat
      then Raise (Exc ValueError "Cannot serialize empty array." None)
      else array <- np_array data (dtype self) ;; Return (_serialize_array array)
  | _ =>
      if hasattr data "read" then read data
      else array <- np_array data None ;; Return (_serialize_array array)
  end.

End Methods.

#[global] Instance serializer `{Runtime} : Base.BaseSerializer t :=
  {| Base.CONTENT_TYPE := CONTENT_TYPE;
     Base.serialize := serialize |}.

End NumpySerializer.

Module JSONSerializer.

Definition CONTENT_TYPE : string := "application/json".

(** The value a key gets in the dictionary that is encoded. *)
Definition converted (value : pyval) : pyval :=
  if isinstance value ndarray_t then tolist value else value.

(** The dictionary comprehension over [data.items()]: the items are
    inserted one after the other into a new dictionary. *)
Definition comprehension (items : list (pyval * pyval)) : list (pyval * pyval) :=
  fold_left (fun acc kv => dict_setitem acc (fst kv) (converted (snd kv))) items [].

Definition serialize (data : pyval) : result pyval :=
  match data with
  | PyDict items => Json.dumps (PyDict (comprehension items))
  | _ =>
      if hasattr data "read" then read data
      else if isinstance data ndarray_t then Json.dumps (tolist data)
      else Json.dumps data
  end.

Inductive t := new.

#[global] Instance serializer : Base.BaseSerializer t :=
  {| Base.CONTENT_TYPE := CONTENT_TYPE;
     Base.serialize := fun _ => serialize |}.

End JSONSerializer.

(** ** Predicates the properties are stated with *)

(** The keys of a dictionary are pairwise different. *)
Fixpoint dict_wf (kvs : list (pyval * pyval)) : bool :=
  match kvs with
  | [] => true
  | (k, _) :: t => forallb (fun kv => negb (key_eqb k (fst kv))) t && dict_wf t
  end.

(** A native array occurs in [v]: [v] itself, or an element of a list or
    tuple, or a value of a dictionary, at any depth. *)
Fixpoint has_ndarray (v : pyval) : bool :=
  match v with
  | PyNdarray _ => true
  | PyList l | PyTuple l => existsb has_ndarray l
  | PyDict kvs => existsb (fun kv => has_ndarray (snd kv)) kvs
  | _ => false
  end.

(** What the structured-text library writes for one item of a dictionary. *)
Definition encode_member (kv : pyval * pyval) : result string :=
  k <- Json.key_text (fst kv) ;;
  v <- Json.encode (snd kv) ;;
  Return (Json.encode_basestring_ascii k ++ ": " ++ v)%string.

(** The item the encoded dictionary has for the item [kv] of the input. *)
Definition converted_item (kv : pyval * pyval) : pyval * pyval :=
  (fst kv, JSONSerializer.converted (snd kv)).

Definition is_str_key (kv : pyval * pyval) : bool := isinstance (fst kv) str_t.

(** The text of a string key. *)
Definition str_of (v : pyval) : string :=
  match v with
  | PyStr s => s
  | _ => EmptyString
  end.

(** A member of a structured-text object: the key of [kv] and the text of
    its value. *)
Definition json_member (kv : pyval * pyval) (value_text : string) : string :=
  (Json.encode_basestring_ascii (str_of (fst kv)) ++ ": " ++ value_text)%string.

(** The structured-text object with the keys of [items], in their order,
    and [texts] as the texts of the values. *)
Definition json_object (items : list (pyval * pyval)) (texts : list string) : string :=
  ("{" ++ String.concat ", "
            (map (fun p => json_member (fst p) (snd p)) (combine items texts))
       ++ "}")%string.

(** The errors the tabular and the binary encoder raise on empty input. *)
Definition empty_array_error : pyexc :=
  Exc ValueError "Cannot serialize empty array" None.

Definition empty_array_error_npy : pyexc :=
  Exc ValueError "Cannot serialize empty array." None.

(** The scalars of a native array of one dimension and length [n]. *)
Definition array_scalars (a : ndarray) (n : nat) : list pyval :=
  map (fun i => PyNpInt (nd_dtype a) (nth i (nd_data a) 0%Z)) (seq 0 n).

(** [data] is a list, a tuple or a native array of one dimension, and
    [items] are its elements. *)
Definition flat_sequence (data : pyval) (items : list pyval) : Prop :=
  data = PyList items
  \/ data = PyTuple items
  \/ exists a, data = PyNdarray a
              /\ nd_shape a = [List.length items]
              /\ items = array_scalars a (List.length items).

(** A Python number of the embedding. *)
Definition is_number (v : pyval) : bool :=
  match v with
  | PyBool _ | PyInt _ | PyNpInt _ _ => true
  | _ => false
  end.

(** Some character of [s] is one of [chars]. *)
Fixpoint any_in (chars : string) (s : string) : bool :=
  match s with
  | EmptyString => false
  | String c t => Csv.mem c chars || any_in chars t
  end.

(** The last character of [s] is one of [chars]. *)
Fixpoint ends_in (chars : string) (s : string) : bool :=
  match s with
  | EmptyString => false
  | String c EmptyString => Csv.mem c chars
  | String _ t => ends_in chars t
  end.

(** ** A runtime to evaluate the encoders with

    Compound objects print as [?], the array constructor takes flat lists
    and tuples of ints, and the container format spends one byte on the
    element type, one on the number of dimensions, one on each dimension and
    one on each element. *)
Module Sample.

Definition byte_of_nat (n : nat) : byte :=
  match Byte.of_nat n with
  | Some b => b
  | None => Byte.x00
  end.

Definition dtype_code (d : dtype) : nat :=
  match d with
  | int8 => 0 | int16 => 1 | int32 => 2 | int64 => 3
  | uint8 => 4 | uint16 => 5 | uint32 => 6 | uint64 => 7
  end.

Definition dtype_of_code (n : nat) : option dtype :=
  nth_error [int8; int16; int32; int64; uint8; uint16; uint32; uint64] n.

Definition save (a : ndarray) : list byte :=
  byte_of_nat (dtype_code (nd_dtype a))
  :: byte_of_nat (List.length (nd_shape a))
  :: map byte_of_nat (nd_shape a)
  ++ map (fun z => byte_of_nat (Z.to_nat z)) (nd_data a).

Definition load (b : list byte) : option ndarray :=
  match b with
  | d :: k :: rest =>
      match dtype_of_code (Byte.to_nat d) with
      | Some dt =>
          let k := Byte.to_nat k in
          Some (mk_ndarray dt (map Byte.to_nat (firstn k rest))
                  (map (fun x => Z.of_nat (Byte.to_nat x)) (skipn k rest)))
      | None => None
      end
  | _ => None
  end.

Fixpoint ints_of (l : list pyval) : option (list Z) :=
  match l with
  | [] => Some []
  | PyInt z :: t => option_map (cons z) (ints_of t)
  | _ :: _ => None
  end.

Definition array (data : pyval) (dt : option string) : result ndarray :=
  match data with
  | PyList l | PyTuple l =>
      match ints_of l with
      | Some zs => Return (mk_ndarray int64 [List.length zs] zs)
      | None => Raise (Exc ValueError "unsupported array contents" None)
      end
  | PyInt z => Return (mk_ndarray int64 [] [z])
  | _ => Raise (Exc ValueError "unsupported array contents" None)
  end.

Definition runtime : Runtime :=
  {| py_repr := fun _ => "?";
     np_array := array;
     np_save := save;
     np_load := load |}.

End Sample.

(** ** Predicates of the further properties *)

(** The structured text of the nested lists of an array of shape [shape]
    with the elements [elems]. *)
Fixpoint nested_text (shape : list nat) (elems : list Z) : string :=
  match shape with
  | [] => str_int (nth 0 elems 0%Z)
  | n :: rest =>
      ("[" ++ String.concat ", "
                (map (fun i => nested_text rest (nd_block rest elems i)) (seq 0 n))
           ++ "]")%string
  end.

(** The structured text of a value that is a native array. *)
Definition array_text (v : pyval) : string :=
  match v with
  | PyNdarray a => nested_text (nd_shape a) (nd_data a)
  | _ => EmptyString
  end.

(** A character from the space to the tilde. *)
Definition printable_char (c : ascii) : bool :=
  ((32 <=? nat_of_ascii c) && (nat_of_ascii c <=? 126))%nat.

(** Every character of [s] is printable ASCII. *)
Fixpoint printable (s : string) : bool :=
  match s with
  | EmptyString => true
  | String c t => printable_char c && printable t
  end.


(** The input of the row encoder after an array is flattened. *)
Definition row_input (data : pyval) : pyval :=
  if isinstance data ndarray_t then flatten data else data.

(** * Properties *)

(** ** The result monad and list comprehensions *)

Lemma mapM_Return {A B : Type} (f : A -> result B) (l : list A) (ys : list B) :
  Forall2 (fun x y => f x = Return y) l ys -> mapM f l = Return ys.
Proof.
  induction 1 as [|x y l ys Hx _ IH]; simpl.
  - reflexivity.
  - rewrite Hx. simpl. fold (mapM f l). rewrite IH. reflexivity.
Qed.

Lemma mapM_inv {A B : Type} (f : A -> result B) (l : list A) (ys : list B) :
  mapM f l = Return ys -> Forall2 (fun x y => f x = Return y) l ys.
Proof.
  revert ys. induction l as [|x l IH]; simpl; intros ys Hm.
  - injection Hm as <-. constructor.
  - destruct (f x) as [y|e] eqn:Hx; simpl in Hm; [|discriminate].
    fold (mapM f l) in Hm.
    destruct (mapM f l) as [zs|e]; simpl in Hm; [|discriminate].
    injection Hm as <-. constructor; auto.
Qed.

(** A comprehension raises the error of the first element that raises. *)
Lemma mapM_Raise {A B : Type} (f : A -> result B) (pre : list A) (x : A)
    (post : list A) (ys : list B) (e : pyexc) :
  Forall2 (fun x y => f x = Return y) pre ys -> f x = Raise e ->
  mapM f (pre ++ x :: post) = Raise e.
Proof.
  intros Hpre Hx. induction Hpre as [|a b pre ys Ha _ IH]; simpl.
  - rewrite Hx. reflexivity.
  - rewrite Ha. simpl. fold (mapM f (pre ++ x :: post)). rewrite IH. reflexivity.
Qed.

(** A comprehension raises as soon as one element does. *)
Lemma mapM_In_Raise {A B : Type} (f : A -> result B) (l : list A) (x : A) :
  In x l -> (exists e, f x = Raise e) -> exists e, mapM f l = Raise e.
Proof.
  intros Hin Hx. induction l as [|a l IH]; simpl in *; [contradiction|].
  destruct (f a) as [y|e] eqn:Ha; simpl; [|eauto].
  fold (mapM f l).
  destruct Hin as [->|Hin].
  - destruct Hx as [e He]. congruence.
  - destruct (IH Hin) as [e He]. rewrite He. simpl. eauto.
Qed.

(** Every error of a comprehension is the error of one of its elements. *)
Lemma mapM_Raise_inv {A B : Type} (f : A -> result B) (l : list A) (e : pyexc) :
  mapM f l = Raise e -> exists x, In x l /\ f x = Raise e.
Proof.
  induction l as [|a l IH]; simpl; intros Hm; [discriminate|].
  destruct (f a) as [y|e'] eqn:Ha; simpl in Hm.
  - fold (mapM f l) in Hm.
    destruct (mapM f l) as [ys|e'']; simpl in Hm; [discriminate|].
    destruct (IH Hm) as [x [Hin Hx]]. eauto.
  - injection Hm as <-. eauto.
Qed.

(** ** Content types *)

(** C9: the content types of the three encoders are the strings text/csv,
    application/x-npy and application/json; each is a constant of its
    encoder, the same through the serializer interface for every encoder
    object and before any input is given. *)
Theorem content_types_fixed :
  CSVSerializer.CONTENT_TYPE = "text/csv"
  /\ NumpySerializer.CONTENT_TYPE = "application/x-npy"
  /\ JSONSerializer.CONTENT_TYPE = "application/json"
  /\ (forall RT : Runtime,
        Base.CONTENT_TYPE CSVSerializer.t = "text/csv"
        /\ Base.CONTENT_TYPE NumpySerializer.t = "application/x-npy"
        /\ Base.CONTENT_TYPE JSONSerializer.t = "application/json").
Proof.
  repeat split; reflexivity.
Qed.

(** ** Streams *)

Section Streams.
Context {RT : Runtime}.

Lemma hasattr_read_stream (data : pyval) :
  hasattr data "read" = true -> exists content, data = PyStream content.
Proof.
  destruct data; simpl; try discriminate. eauto.
Qed.

(** C7: an input that exposes a read operation and is neither a mapping,
    a list nor a native array is read, and what the read returns is the
    result of serialize for each of the three encoders; none of them
    raises. *)
Theorem stream_passthrough (self : NumpySerializer.t) (data : pyval) :
  hasattr data "read" = true ->
  isinstance data dict_t = false ->
  isinstance data list_t = false ->
  isinstance data ndarray_t = false ->
  exists content,
    read data = Return content
    /\ CSVSerializer.serialize data = Return content
    /\ NumpySerializer.serialize self data = Return content
    /\ JSONSerializer.serialize data = Return content.
Proof.
  intros Hread _ _ _.
  destruct (hasattr_read_stream data Hread) as [content ->].
  exists content. repeat split; reflexivity.
Qed.

End Streams.

Lemma stream_passthrough_witness :
  exists content,
    read (PyStream (PyStr "1,2")) = Return content
    /\ @CSVSerializer.serialize Sample.runtime (PyStream (PyStr "1,2")) = Return content
    /\ @NumpySerializer.serialize Sample.runtime (NumpySerializer.new None)
         (PyStream (PyStr "1,2")) = Return content
    /\ JSONSerializer.serialize (PyStream (PyStr "1,2")) = Return content.
Proof.
  apply (@stream_passthrough Sample.runtime (NumpySerializer.new None)
           (PyStream (PyStr "1,2"))); reflexivity.
Defined.

(** ** Inputs without a length *)

Section Unsized.
Context {RT : Runtime}.

(** The row encoder rejects an input that is not a string and has no
    length with the error that names its type. *)
Lemma row_unsized_ValueError (data : pyval) :
  isinstance data str_t = false -> hasattr data "__len__" = false ->
  CSVSerializer._serialize_row data
  = Raise (Exc ValueError "Unable to handle input format: " (Some (type data))).
Proof.
  destruct data; simpl; intros; try discriminate; reflexivity.
Qed.

(** [serialize] takes the length of its input before it reaches the row
    encoder: an input without a length leaves it with the TypeError of
    [len]. *)
Lemma serialize_unsized_TypeError (data : pyval) :
  hasattr data "read" = false -> hasattr data "__len__" = false ->
  CSVSerializer.serialize data
  = Raise (Exc TypeError "object has no len()" (Some (type data))).
Proof.
  destruct data; simpl; intros; try discriminate; reflexivity.
Qed.

(** C2: on the int 5, which is not stream-like, not a string and has no
    length, serialize of the tabular encoder raises the TypeError of len
    and not the error that names the unhandled input's type, which the row
    encoder alone would raise. *)
Theorem serialize_int_raises_TypeError :
  CSVSerializer.serialize (PyInt 5)
  = Raise (Exc TypeError "object has no len()" (Some int_t))
  /\ CSVSerializer._serialize_row (PyInt 5)
     = Raise (Exc ValueError "Unable to handle input format: " (Some int_t)).
Proof.
  split; reflexivity.
Qed.

End Unsized.

(** ** Empty inputs *)

Section Empty.
Context {RT : Runtime}.

Lemma length_zero_nil {A : Type} (l : list A) (n : nat) :
  Return (List.length l) = Return n -> n = 0 -> l = [].
Proof.
  intros Hl ->. injection Hl as Hl. now destruct l.
Qed.

Lemma row_empty (data : pyval) :
  isinstance data str_t = false -> len data = Return 0 ->
  CSVSerializer._serialize_row data = Raise empty_array_error.
Proof.
  intros Hstr Hlen.
  destruct data; simpl in *; try discriminate;
    try (rewrite (length_zero_nil _ _ Hlen eq_refl); reflexivity).
  destruct a as [d [|n rest] elems]; simpl in *; [discriminate|].
  injection Hlen as ->. reflexivity.
Qed.

Lemma serialize_empty (data : pyval) :
  isinstance data str_t = false -> len data = Return 0 ->
  CSVSerializer.serialize data = Raise empty_array_error.
Proof.
  intros Hstr Hlen.
  assert (Hrow := row_empty data Hstr Hlen).
  unfold CSVSerializer.serialize.
  replace (hasattr data "read") with false
    by (destruct data; simpl in *; try reflexivity; discriminate).
  rewrite Hlen. simpl. rewrite andb_false_r, Hrow. reflexivity.
Qed.

Lemma npy_empty_list (self : NumpySerializer.t) :
  NumpySerializer.serialize self (PyList []) = Raise empty_array_error_npy.
Proof. reflexivity. Qed.

Lemma npy_empty_array (self : NumpySerializer.t) (a : ndarray) :
  nd_size a = 0 ->
  NumpySerializer.serialize self (PyNdarray a) = Raise empty_array_error_npy.
Proof.
  intros Hsize. simpl. rewrite Hsize. reflexivity.
Qed.

Lemma len_zero_size (a : ndarray) : len (PyNdarray a) = Return 0 -> nd_size a = 0.
Proof.
  destruct a as [d [|n rest] elems]; simpl; [discriminate|].
  intros Hlen. injection Hlen as ->. reflexivity.
Qed.

(** C1, as the code has it: an input of length zero that is not a string
    is rejected with the empty-array error by the tabular encoder, and by
    the binary encoder when it is a list or a native array. *)
Theorem empty_collection_rejected (self : NumpySerializer.t) (data : pyval) :
  isinstance data str_t = false ->
  len data = Return 0 ->
  CSVSerializer.serialize data = Raise empty_array_error
  /\ (isinstance data list_t = true \/ isinstance data ndarray_t = true ->
      NumpySerializer.serialize self data = Raise empty_array_error_npy).
Proof.
  intros Hstr Hlen. split.
  - now apply serialize_empty.
  - intros [Hl|Ha].
    + destruct data; simpl in Hl; try discriminate.
      rewrite (length_zero_nil _ _ Hlen eq_refl). apply npy_empty_list.
    + destruct data; simpl in Ha; try discriminate.
      apply npy_empty_array. now apply len_zero_size.
Qed.

(** C8: the row encoder of the tabular encoder raises the empty-array
    error for every input that is not a string and has length zero; the
    binary encoder raises it for the empty list and for every native array
    of size zero; for an input that is neither an array, a list nor a
    stream the binary encoder builds an array and encodes it, whatever its
    size. *)
Theorem empty_input_errors (self : NumpySerializer.t) :
  (forall data, isinstance data str_t = false -> len data = Return 0 ->
                CSVSerializer._serialize_row data = Raise empty_array_error)
  /\ NumpySerializer.serialize self (PyList []) = Raise empty_array_error_npy
  /\ (forall a, nd_size a = 0 ->
                NumpySerializer.serialize self (PyNdarray a) = Raise empty_array_error_npy)
  /\ (forall data, isinstance data ndarray_t = false -> isinstance data list_t = false ->
                   hasattr data "read" = false ->
                   NumpySerializer.serialize self data
                   = (array <- np_array data None ;;
                      Return (NumpySerializer._serialize_array array))
                     /\ forall array, np_array data None = Return array ->
                          NumpySerializer.serialize self data
                          = Return (PyBytes (np_save array))).
Proof.
  split; [exact row_empty|].
  split; [apply npy_empty_list|].
  split; [apply npy_empty_array|].
  intros data Ha Hl Hr.
  assert (Heq : NumpySerializer.serialize self data
                = (array <- np_array data None ;;
                   Return (NumpySerializer._serialize_array array))).
  { destruct data; simpl in *; try discriminate; reflexivity. }
  split; [exact Heq|].
  intros array Harr. rewrite Heq, Harr. reflexivity.
Qed.

End Empty.

(** C1, as stated, fails: the empty list has length zero and the
    structured-text encoder returns the payload that encodes it. *)
Lemma json_encodes_empty_list :
  len (PyList []) = Return 0
  /\ JSONSerializer.serialize (PyList []) = Return (PyStr "[]").
Proof.
  split; reflexivity.
Qed.

Lemma empty_collection_rejected_witness :
  @CSVSerializer.serialize Sample.runtime (PyTuple []) = Raise empty_array_error
  /\ (isinstance (PyTuple []) list_t = true \/ isinstance (PyTuple []) ndarray_t = true ->
      @NumpySerializer.serialize Sample.runtime (NumpySerializer.new None) (PyTuple [])
      = Raise empty_array_error_npy).
Proof.
  apply (@empty_collection_rejected Sample.runtime (NumpySerializer.new None) (PyTuple []));
    reflexivity.
Defined.

(** ** The binary encoder on native arrays *)

Section Binary.
Context {RT : Runtime}.

(** A native array that is not empty is handed to the writer as it is and
    the whole buffer is returned: the element type given at construction
    plays no part.  What a reader makes of the bytes is the array library's
    format and lies outside this development. *)
Lemma npy_array_saved (self : NumpySerializer.t) (a : ndarray) :
  nd_size a <> 0 ->
  NumpySerializer.serialize self (PyNdarray a) = Return (PyBytes (np_save a)).
Proof.
  intros Hsize. simpl.
  destruct (Nat.eqb_spec (nd_size a) 0) as [Hz|_]; [contradiction|reflexivity].
Qed.

End Binary.

(** ** Rows of numbers *)

Lemma uint_no_special (d : uint) : Csv.has_special (NilEmpty.string_of_uint d) = false.
Proof.
  induction d; simpl; auto.
Qed.

Lemma str_int_no_special (z : Z) : Csv.has_special (str_int z) = false.
Proof.
  unfold str_int, NilZero.string_of_int.
  destruct (Z.to_int z) as [d|d]; destruct d; simpl; auto using uint_no_special.
Qed.

Lemma str_int_nonempty (z : Z) : str_int z <> EmptyString.
Proof.
  unfold str_int, NilZero.string_of_int.
  destruct (Z.to_int z) as [d|d]; destruct d; simpl; discriminate.
Qed.

Lemma no_special_no_eol (s : string) :
  Csv.has_special s = false -> any_in Csv.lineterminator s = false.
Proof.
  induction s as [|c s IH]; simpl; [reflexivity|].
  intros Hs. apply orb_false_iff in Hs as [Hc Hs].
  unfold Csv.special in Hc. apply orb_false_iff in Hc as [_ Hc].
  simpl in Hc. rewrite Hc. simpl. auto.
Qed.

Lemma any_in_app (chars s t : string) :
  any_in chars (s ++ t) = any_in chars s || any_in chars t.
Proof.
  induction s as [|c s IH]; simpl; [reflexivity|].
  rewrite IH. apply orb_assoc.
Qed.

Lemma any_in_concat_comma (l : list string) :
  Forall (fun s => any_in Csv.lineterminator s = false) l ->
  any_in Csv.lineterminator (String.concat "," l) = false.
Proof.
  induction 1 as [|s l Hs Hl IH]; [reflexivity|].
  destruct l as [|s' l']; [exact Hs|].
  change (any_in Csv.lineterminator (s ++ "," ++ String.concat "," (s' :: l')) = false).
  rewrite !any_in_app, Hs, IH. reflexivity.
Qed.

Lemma no_eol_ends_in (s : string) :
  any_in Csv.lineterminator s = false -> ends_in Csv.lineterminator s = false.
Proof.
  induction s as [|c s IH]; [reflexivity|].
  intros Hs. change (Csv.mem c Csv.lineterminator || any_in Csv.lineterminator s = false) in Hs.
  apply orb_false_iff in Hs as [Hc Hs].
  destruct s as [|c' s']; [exact Hc|]. exact (IH Hs).
Qed.

Lemma rstrip_id (chars s : string) :
  ends_in chars s = false -> Csv.rstrip chars s = s.
Proof.
  induction s as [|c s IH]; [reflexivity|].
  destruct s as [|c' s'].
  - simpl. now intros ->.
  - intros He. change (ends_in chars (String c' s') = false) in He.
    change (Csv.rstrip chars (String c (String c' s')))
      with (match Csv.rstrip chars (String c' s') with
            | EmptyString => if Csv.mem c chars then EmptyString else String c EmptyString
            | r => String c r
            end).
    rewrite (IH He). reflexivity.
Qed.

Lemma rstrip_terminator (s : string) :
  Csv.rstrip Csv.lineterminator (s ++ Csv.lineterminator)
  = Csv.rstrip Csv.lineterminator s.
Proof.
  induction s as [|c s IH]; [reflexivity|].
  simpl. simpl in IH. rewrite IH. reflexivity.
Qed.

Lemma concat_nonempty (sep s : string) (l : list string) :
  s <> EmptyString -> (String.length (String.concat sep (s :: l)) =? 0)%nat = false.
Proof.
  intros Hs. destruct s as [|c s]; [contradiction|].
  destruct l; reflexivity.
Qed.

Section Rows.
Context {RT : Runtime}.

Lemma number_field (v : pyval) :
  is_number v = true ->
  Csv.quote_field (Csv.field_text v) = Py.str v
  /\ Py.str v <> EmptyString
  /\ any_in Csv.lineterminator (Py.str v) = false.
Proof.
  destruct v as [ |b|z| | | | | | |d z| ]; try discriminate; intros _.
  - destruct b; repeat split; try reflexivity; discriminate.
  - simpl. unfold Csv.quote_field. rewrite str_int_no_special.
    auto using str_int_nonempty, no_special_no_eol, str_int_no_special.
  - simpl. unfold Csv.quote_field. rewrite str_int_no_special.
    auto using str_int_nonempty, no_special_no_eol, str_int_no_special.
Qed.

Lemma number_not_sequence (v : pyval) :
  is_number v = true -> CSVSerializer._is_sequence_like v = false.
Proof.
  destruct v; try discriminate; reflexivity.
Qed.

Lemma record_numbers (items : list pyval) :
  forallb is_number items = true -> 0 < List.length items ->
  Csv.record items = Csv.join "," (map Py.str items)
  /\ any_in Csv.lineterminator (Csv.join "," (map Py.str items)) = false.
Proof.
  intros Hnum Hlen.
  assert (Hmap : map (fun v => Csv.quote_field (Csv.field_text v)) items = map Py.str items).
  { apply map_ext_in. intros v Hv.
    apply (proj1 (forallb_forall _ _) Hnum) in Hv. now apply number_field. }
  split.
  - unfold Csv.record, Csv.join. change (String Csv.delimiter EmptyString) with ",".
    rewrite Hmap. destruct items as [|v t]; [simpl in Hlen; lia|].
    simpl in Hnum. apply andb_true_iff in Hnum as [Hv _].
    change (map Py.str (v :: t)) with (Py.str v :: map Py.str t).
    rewrite concat_nonempty by (now apply number_field).
    rewrite andb_false_r. reflexivity.
  - apply any_in_concat_comma. apply Forall_forall. intros s Hs.
    apply in_map_iff in Hs as [v [<- Hv]].
    apply (proj1 (forallb_forall _ _) Hnum) in Hv. now apply number_field.
Qed.

Lemma nth_map_seq (f : nat -> Z) (m i : nat) :
  i < m -> nth i (map f (seq 0 m)) 0%Z = f i.
Proof.
  intros Hi.
  rewrite (nth_indep _ 0%Z (f 0)) by (rewrite length_map, length_seq; exact Hi).
  rewrite map_nth, seq_nth by exact Hi. reflexivity.
Qed.


(** A native array of one dimension, flattened: its length and its
    elements. *)
Lemma flatten_1d (a : ndarray) (n : nat) :
  nd_shape a = [n] ->
  len (PyNdarray (nd_flatten a)) = Return n
  /\ iter (PyNdarray (nd_flatten a)) = Return (array_scalars a n).
Proof.
  intros Hshape.
  assert (Hsize : nd_size a = n).
  { unfold nd_size. rewrite Hshape. simpl. apply Nat.mul_1_r. }
  unfold nd_flatten. simpl. rewrite Hsize. split; [reflexivity|].
  f_equal. unfold array_scalars. apply map_ext_in. intros i Hi.
  apply in_seq in Hi. unfold nd_item, nd_elems. simpl. rewrite Hsize.
  rewrite nth_map_seq by lia. reflexivity.
Qed.

Lemma row_numbers (items : list pyval) (data : pyval) :
  forallb is_number items = true -> 0 < List.length items ->
  flat_sequence data items ->
  CSVSerializer._serialize_row data = Return (Csv.join "," (map Py.str items)).
Proof.
  intros Hnum Hlen Hdata.
  destruct (record_numbers items Hnum Hlen) as [Hrec Heol].
  assert (Hrow : CSVSerializer._serialize_row data
                 = Return (Csv.rstrip Csv.lineterminator
                             (Csv.record items ++ Csv.lineterminator))).
  { destruct Hdata as [-> | [-> | [a [-> [Hshape Hitems]]]]].
    - unfold CSVSerializer._serialize_row; simpl.
      destruct (Nat.eqb_spec (List.length items) 0) as [Hz|_]; [lia|reflexivity].
    - unfold CSVSerializer._serialize_row; simpl.
      destruct (Nat.eqb_spec (List.length items) 0) as [Hz|_]; [lia|reflexivity].
    - destruct (flatten_1d a _ Hshape) as [Hl Hi].
      unfold CSVSerializer._serialize_row, Csv.writerow, flatten.
      change (isinstance (PyNdarray a) ndarray_t) with true.
      change (hasattr (PyNdarray (nd_flatten a)) "__len__") with true.
      cbv iota. rewrite Hl, Hi, <- Hitems. simpl.
      destruct (Nat.eqb_spec (List.length items) 0) as [Hz|_]; [lia|reflexivity]. }
  rewrite Hrow, rstrip_terminator, Hrec.
  rewrite rstrip_id by (now apply no_eol_ends_in). reflexivity.
Qed.

(** The length and the first element of a flat sequence. *)
Lemma flat_sequence_first (data v : pyval) (t : list pyval) :
  flat_sequence data (v :: t) ->
  hasattr data "read" = false
  /\ len data = Return (S (List.length t))
  /\ getitem data 0 = Return v.
Proof.
  intros [-> | [-> | [a [-> [Hshape Hitems]]]]];
    [repeat split; reflexivity | repeat split; reflexivity |].
  split; [reflexivity|]. simpl in Hshape. simpl. rewrite Hshape.
  split; [reflexivity|]. simpl.
  unfold nd_item. rewrite Hshape.
  unfold array_scalars in Hitems. simpl in Hitems.
  injection Hitems as Hv _. now rewrite Hv.
Qed.

(** An input whose element at index 0 is not a sequence is one row. *)
Lemma serialize_single (data first : pyval) (n : nat) :
  hasattr data "read" = false ->
  len data = Return n -> 0 < n ->
  getitem data 0 = Return first ->
  CSVSerializer._is_sequence_like first = false ->
  CSVSerializer.serialize data
  = (row <- CSVSerializer._serialize_row data ;; Return (PyStr row)).
Proof.
  intros Hread Hlen Hn Hget Hfirst.
  unfold CSVSerializer.serialize.
  rewrite Hread, Hlen. simpl.
  destruct (Nat.ltb_spec 0 n) as [_|Hle]; [|lia].
  rewrite Hget. simpl. rewrite Hfirst, andb_false_r. reflexivity.
Qed.

(** C5: for a flat sequence of numbers that is not empty (a list, a
    tuple or a native array of one dimension), serialize of the tabular
    encoder returns the texts of the elements joined by commas, and the
    result does not end in a newline or carriage return. *)
Theorem flat_numbers_comma_joined (items : list pyval) (data : pyval) :
  forallb is_number items = true ->
  0 < List.length items ->
  flat_sequence data items ->
  exists out,
    CSVSerializer.serialize data = Return (PyStr out)
    /\ out = Csv.join "," (map Py.str items)
    /\ ends_in Csv.lineterminator out = false.
Proof.
  intros Hnum Hlen Hdata.
  exists (Csv.join "," (map Py.str items)).
  split; [|split; [reflexivity|]].
  - assert (Hrow := row_numbers items data Hnum Hlen Hdata).
    destruct items as [|v t]; [simpl in Hlen; lia|].
    assert (Hv : CSVSerializer._is_sequence_like v = false).
    { simpl in Hnum. apply andb_true_iff in Hnum as [Hv _].
      now apply number_not_sequence. }
    destruct (flat_sequence_first data v t Hdata) as [Hread [Hl Hget]].
    rewrite (serialize_single data v (S (List.length t)) Hread Hl Hlen Hget Hv).
    rewrite Hrow. reflexivity.
  - apply no_eol_ends_in. now apply record_numbers.
Qed.

(** A sequence of rows: the rows are encoded one by one and joined by a
    newline. *)
Lemma serialize_rows (data first : pyval) (n : nat) (rows : list pyval) :
  hasattr data "__setitem__" = true ->
  CSVSerializer._is_sequence_like data = true ->
  len data = Return n -> 0 < n ->
  getitem data 0 = Return first ->
  CSVSerializer._is_sequence_like first = true ->
  iter data = Return rows ->
  CSVSerializer.serialize data
  = (encoded <- mapM CSVSerializer._serialize_row rows ;;
     Return (PyStr (Csv.join (String Csv.LF EmptyString) encoded))).
Proof.
  intros Hset Hseq Hlen Hn Hget Hfirst Hiter.
  unfold CSVSerializer.serialize.
  replace (hasattr data "read") with false
    by (destruct data; simpl in *; try reflexivity; discriminate).
  rewrite Hlen. simpl.
  destruct (Nat.ltb_spec 0 n) as [_|Hle]; [|lia].
  rewrite Hget. simpl. rewrite Hfirst, Hseq, Hset. simpl.
  rewrite Hiter. reflexivity.
Qed.

(** C4, as the code has it: for an input that is not empty, supports
    indexed mutation, indexed read and iteration and whose element at
    index 0 is iterable and indexable, serialize returns the encodings of
    the elements as single rows, in the order of iteration and joined by
    one newline, when every element has such an encoding; when one has
    none, serialize raises the error of the first such element. *)
Theorem multi_row_join (data first : pyval) (n : nat) (rows : list pyval) :
  hasattr data "__setitem__" = true ->
  CSVSerializer._is_sequence_like data = true ->
  len data = Return n -> 0 < n ->
  getitem data 0 = Return first ->
  CSVSerializer._is_sequence_like first = true ->
  iter data = Return rows ->
  (forall encoded,
     Forall2 (fun row s => CSVSerializer._serialize_row row = Return s) rows encoded ->
     CSVSerializer.serialize data
     = Return (PyStr (Csv.join (String Csv.LF EmptyString) encoded)))
  /\ (forall pre row post encoded e,
        rows = pre ++ row :: post ->
        Forall2 (fun row s => CSVSerializer._serialize_row row = Return s) pre encoded ->
        CSVSerializer._serialize_row row = Raise e ->
        CSVSerializer.serialize data = Raise e).
Proof.
  intros Hset Hseq Hlen Hn Hget Hfirst Hiter.
  rewrite (serialize_rows data first n rows) by assumption.
  split.
  - intros encoded Henc. rewrite (mapM_Return _ _ _ Henc). reflexivity.
  - intros pre row post encoded e -> Hpre Hrow.
    rewrite (mapM_Raise _ _ _ _ _ _ Hpre Hrow). reflexivity.
Qed.

End Rows.

Lemma flat_numbers_comma_joined_witness :
  exists out,
    @CSVSerializer.serialize Sample.runtime (PyList [PyInt 1; PyInt 2; PyInt 3])
    = Return (PyStr out)
    /\ out = Csv.join "," (map (@Py.str Sample.runtime) [PyInt 1; PyInt 2; PyInt 3])
    /\ ends_in Csv.lineterminator out = false.
Proof.
  apply (@flat_numbers_comma_joined Sample.runtime [PyInt 1; PyInt 2; PyInt 3]).
  - reflexivity.
  - simpl. lia.
  - left. reflexivity.
Defined.

(** The same on a native array of one dimension. *)
Example flat_array_comma_joined :
  @CSVSerializer.serialize Sample.runtime
    (PyNdarray (mk_ndarray int32 [3] [10; -2; 7]%Z))
  = Return (PyStr "10,-2,7").
Proof. reflexivity. Qed.

Lemma empty_input_errors_witness :
  @CSVSerializer._serialize_row Sample.runtime (PyTuple []) = Raise empty_array_error
  /\ @NumpySerializer.serialize Sample.runtime (NumpySerializer.new None)
       (PyNdarray (mk_ndarray int64 [2; 0] [])) = Raise empty_array_error_npy
  /\ @NumpySerializer.serialize Sample.runtime (NumpySerializer.new None) (PyTuple [])
     = Return (PyBytes (Sample.save (mk_ndarray int64 [0] []))).
Proof.
  destruct (@empty_input_errors Sample.runtime (NumpySerializer.new None))
    as [Hrow [_ [Harr Hother]]].
  split; [apply Hrow; reflexivity|].
  split; [apply Harr; reflexivity|].
  apply Hother; reflexivity.
Defined.

Lemma multi_row_join_witness :
  (forall encoded,
     Forall2 (fun row s => @CSVSerializer._serialize_row Sample.runtime row = Return s)
       [PyList [PyInt 1; PyInt 2]; PyList [PyInt 3; PyInt 4]] encoded ->
     @CSVSerializer.serialize Sample.runtime (PyList [PyList [PyInt 1; PyInt 2]; PyList [PyInt 3; PyInt 4]])
     = Return (PyStr (Csv.join (String Csv.LF EmptyString) encoded)))
  /\ (forall pre row post encoded e,
        [PyList [PyInt 1; PyInt 2]; PyList [PyInt 3; PyInt 4]] = pre ++ row :: post ->
        Forall2 (fun row s => @CSVSerializer._serialize_row Sample.runtime row = Return s)
          pre encoded ->
        @CSVSerializer._serialize_row Sample.runtime row = Raise e ->
        @CSVSerializer.serialize Sample.runtime (PyList [PyList [PyInt 1; PyInt 2]; PyList [PyInt 3; PyInt 4]]) = Raise e).
Proof.
  apply (@multi_row_join Sample.runtime (PyList [PyList [PyInt 1; PyInt 2]; PyList [PyInt 3; PyInt 4]]) (PyList [PyInt 1; PyInt 2]) 2).
  - reflexivity.
  - reflexivity.
  - reflexivity.
  - lia.
  - reflexivity.
  - reflexivity.
  - reflexivity.
Defined.

(** C4, as stated, fails: the list whose only element is the empty list is
    not empty, supports indexed mutation, indexed read and iteration, its
    first element is iterable and indexable, and serialize raises. *)
Lemma multi_row_empty_row_raises :
  len (PyList [PyList []]) = Return 1
  /\ hasattr (PyList [PyList []]) "__setitem__" = true
  /\ @CSVSerializer._is_sequence_like (PyList [PyList []]) = true
  /\ getitem (PyList [PyList []]) 0 = Return (PyList [])
  /\ @CSVSerializer._is_sequence_like (PyList []) = true
  /\ @CSVSerializer.serialize Sample.runtime (PyList [PyList []])
     = Raise empty_array_error.
Proof.
  repeat split; reflexivity.
Qed.

(** ** Dictionaries *)

Lemma dict_setitem_fresh (acc : list (pyval * pyval)) (k v : pyval) :
  (forall kv, In kv acc -> key_eqb (fst kv) k = false) ->
  dict_setitem acc k v = acc ++ [(k, v)].
Proof.
  induction acc as [|[k' v'] acc IH]; simpl; intros Hfresh; [reflexivity|].
  pose proof (Hfresh (k', v') (or_introl eq_refl)) as Hk. simpl in Hk.
  rewrite Hk, IH by auto. reflexivity.
Qed.

Lemma dict_wf_cons (k v : pyval) (t : list (pyval * pyval)) :
  dict_wf ((k, v) :: t) = true ->
  (forall kv, In kv t -> key_eqb k (fst kv) = false) /\ dict_wf t = true.
Proof.
  simpl. intros Hwf. apply andb_true_iff in Hwf as [Hk Ht].
  split; [|exact Ht].
  intros kv Hin. apply (proj1 (forallb_forall _ _) Hk) in Hin.
  now apply negb_true_iff.
Qed.

Lemma fold_setitem (f : pyval -> pyval) (items acc : list (pyval * pyval)) :
  (forall kv kv', In kv acc -> In kv' items -> key_eqb (fst kv) (fst kv') = false) ->
  dict_wf items = true ->
  fold_left (fun acc kv => dict_setitem acc (fst kv) (f (snd kv))) items acc
  = acc ++ map (fun kv => (fst kv, f (snd kv))) items.
Proof.
  revert acc. induction items as [|[k v] items IH]; intros acc Hacc Hwf.
  - simpl. now rewrite app_nil_r.
  - apply dict_wf_cons in Hwf as [Hk Hwf].
    simpl. rewrite dict_setitem_fresh.
    + rewrite IH; [now rewrite <- app_assoc| |exact Hwf].
      intros kv kv' Hin Hin'. apply in_app_iff in Hin as [Hin|[<-|[]]].
      * apply Hacc; simpl; auto.
      * simpl. now apply Hk.
    + intros kv Hin. apply (Hacc kv (k, v)); simpl; auto.
Qed.

(** The comprehension over a dictionary keeps every key in its place and
    converts every value. *)
Lemma comprehension_map (items : list (pyval * pyval)) :
  dict_wf items = true ->
  JSONSerializer.comprehension items
  = map (fun kv => (fst kv, JSONSerializer.converted (snd kv))) items.
Proof.
  intros Hwf. unfold JSONSerializer.comprehension.
  rewrite fold_setitem; [reflexivity| |exact Hwf].
  intros kv kv' [].
Qed.

(** ** The structured-text library *)

Lemma pyval_nested_ind (P : pyval -> Prop) :
  (forall v, match v with
             | PyList _ | PyTuple _ | PyDict _ | PyStream _ => True
             | _ => P v
             end) ->
  (forall l, Forall P l -> P (PyList l)) ->
  (forall l, Forall P l -> P (PyTuple l)) ->
  (forall kvs, Forall (fun kv => P (snd kv)) kvs -> P (PyDict kvs)) ->
  (forall c, P c -> P (PyStream c)) ->
  forall v, P v.
Proof.
  intros Hleaf Hlist Htuple Hdict Hstream.
  fix IH 1. intros v.
  destruct v as [ | | | | |l|l|kvs| | |c];
    try (match goal with |- P ?v => exact (Hleaf v) end).
  - apply Hlist. induction l as [|x l IHl]; constructor; [apply IH|exact IHl].
  - apply Htuple. induction l as [|x l IHl]; constructor; [apply IH|exact IHl].
  - apply Hdict. induction kvs as [|kv kvs IHl]; constructor; [apply IH|exact IHl].
  - apply Hstream. apply IH.
Qed.

Lemma encode_list_eq (l : list pyval) :
  Json.encode (PyList l)
  = (chunks <- mapM Json.encode l ;;
     Return ("[" ++ String.concat ", " chunks ++ "]")%string).
Proof. reflexivity. Qed.

Lemma encode_tuple_eq (l : list pyval) :
  Json.encode (PyTuple l)
  = (chunks <- mapM Json.encode l ;;
     Return ("[" ++ String.concat ", " chunks ++ "]")%string).
Proof. reflexivity. Qed.

Lemma encode_dict_eq (kvs : list (pyval * pyval)) :
  Json.encode (PyDict kvs)
  = (chunks <- mapM encode_member kvs ;;
     Return ("{" ++ String.concat ", " chunks ++ "}")%string).
Proof. reflexivity. Qed.

Lemma bind_Raise_inv {A B : Type} (c : result A) (k : A -> result B) (e : pyexc) :
  (forall a, k a <> Raise e) -> bind c k = Raise e -> c = Raise e.
Proof.
  intros Hk. destruct c as [a|e']; simpl; intros Hb.
  - now apply Hk in Hb.
  - now injection Hb as ->.
Qed.

Lemma key_text_TypeError (k : pyval) (e : pyexc) :
  Json.key_text k = Raise e -> exc_cls e = TypeError.
Proof.
  destruct k as [ |b| | | | | | | | | ]; simpl; intros He; try discriminate;
    try (injection He as <-; reflexivity).
  destruct b; discriminate.
Qed.

(** Every error of the structured-text library is a TypeError. *)
Lemma encode_TypeError (v : pyval) :
  forall e, Json.encode v = Raise e -> exc_cls e = TypeError.
Proof.
  revert v.
  apply (pyval_nested_ind
           (fun v => forall e, Json.encode v = Raise e -> exc_cls e = TypeError));
    [intros v|intros l IH|intros l IH|intros kvs IH|intros c _].
  - destruct v as [ |b| | | | | | | | | ]; trivial; simpl; intros e He;
      try discriminate; try (injection He as <-; reflexivity).
    destruct b; discriminate.
  - intros e He. rewrite encode_list_eq in He.
    apply bind_Raise_inv in He; [|discriminate].
    apply mapM_Raise_inv in He as [x [Hin Hx]].
    exact (proj1 (Forall_forall _ _) IH x Hin e Hx).
  - intros e He. rewrite encode_tuple_eq in He.
    apply bind_Raise_inv in He; [|discriminate].
    apply mapM_Raise_inv in He as [x [Hin Hx]].
    exact (proj1 (Forall_forall _ _) IH x Hin e Hx).
  - intros e He. rewrite encode_dict_eq in He.
    apply bind_Raise_inv in He; [|discriminate].
    apply mapM_Raise_inv in He as [kv [Hin Hkv]].
    unfold encode_member in Hkv.
    destruct (Json.key_text (fst kv)) as [k|e'] eqn:Hk; simpl in Hkv.
    + apply bind_Raise_inv in Hkv; [|discriminate].
      exact (proj1 (Forall_forall _ _) IH kv Hin e Hkv).
    + injection Hkv as <-. exact (key_text_TypeError _ _ Hk).
  - intros e He. simpl in He. injection He as <-. reflexivity.
Qed.

(** The structured-text library has no encoding for a value in which a
    native array occurs. *)
Lemma encode_ndarray_Raise (v : pyval) :
  has_ndarray v = true -> exists e, Json.encode v = Raise e.
Proof.
  revert v.
  apply (pyval_nested_ind
           (fun v => has_ndarray v = true -> exists e, Json.encode v = Raise e));
    [intros v|intros l IH|intros l IH|intros kvs IH|intros c _].
  - destruct v; trivial; simpl; intros Hv; try discriminate. eauto.
  - intros Hv. simpl in Hv. apply existsb_exists in Hv as [x [Hin Hx]].
    rewrite encode_list_eq.
    destruct (mapM_In_Raise Json.encode l x Hin) as [e He].
    + exact (proj1 (Forall_forall _ _) IH x Hin Hx).
    + rewrite He. simpl. eauto.
  - intros Hv. simpl in Hv. apply existsb_exists in Hv as [x [Hin Hx]].
    rewrite encode_tuple_eq.
    destruct (mapM_In_Raise Json.encode l x Hin) as [e He].
    + exact (proj1 (Forall_forall _ _) IH x Hin Hx).
    + rewrite He. simpl. eauto.
  - intros Hv. simpl in Hv. apply existsb_exists in Hv as [kv [Hin Hx]].
    rewrite encode_dict_eq.
    destruct (mapM_In_Raise encode_member kvs kv Hin) as [e He].
    + unfold encode_member.
      destruct (Json.key_text (fst kv)) as [k|e']; simpl; [|eauto].
      destruct (proj1 (Forall_forall _ _) IH kv Hin Hx) as [e He].
      rewrite He. simpl. eauto.
    + rewrite He. simpl. eauto.
  - discriminate.
Qed.

(** ** The structured-text encoder on dictionaries *)

Lemma mapM_cons {A B : Type} (f : A -> result B) (x : A) (l : list A) :
  mapM f (x :: l) = (y <- f x ;; ys <- mapM f l ;; Return (y :: ys)).
Proof. reflexivity. Qed.

Lemma serialize_dict (items : list (pyval * pyval)) :
  dict_wf items = true ->
  JSONSerializer.serialize (PyDict items)
  = Json.dumps (PyDict (map converted_item items)).
Proof.
  intros Hwf. simpl. now rewrite comprehension_map.
Qed.

Lemma members_Forall2 (items : list (pyval * pyval)) (texts : list string) :
  forallb is_str_key items = true ->
  Forall2 (fun kv t => Json.encode (JSONSerializer.converted (snd kv)) = Return t)
    items texts ->
  Forall2 (fun kv m => encode_member kv = Return m)
    (map converted_item items)
    (map (fun p => json_member (fst p) (snd p)) (combine items texts)).
Proof.
  intros Hkeys Henc. induction Henc as [|[k v] t items texts Hv _ IH]; simpl.
  - constructor.
  - simpl in Hkeys. apply andb_true_iff in Hkeys as [Hk Hkeys].
    constructor; [|now apply IH].
    destruct k; try discriminate.
    unfold encode_member, converted_item. simpl in *. rewrite Hv. reflexivity.
Qed.

(** C6, as the code has it: for a mapping with string keys, serialize
    gives what the structured-text library gives for the mapping with the
    same keys in the same order in which every native-array value is
    replaced by its nested lists and every other value is left as it is:
    the object with these keys and the encodings of these values when each
    value has an encoding, and the error of the first value that has
    none. *)
Theorem dict_encoding (items : list (pyval * pyval)) :
  dict_wf items = true ->
  forallb is_str_key items = true ->
  JSONSerializer.serialize (PyDict items)
  = Json.dumps (PyDict (map converted_item items))
  /\ map fst (map converted_item items) = map fst items
  /\ (forall kv, In kv items ->
        snd (converted_item kv)
        = if isinstance (snd kv) ndarray_t then tolist (snd kv) else snd kv)
  /\ (forall texts,
        Forall2 (fun kv t => Json.encode (JSONSerializer.converted (snd kv)) = Return t)
          items texts ->
        JSONSerializer.serialize (PyDict items)
        = Return (PyStr (json_object items texts)))
  /\ (forall pre kv post texts e,
        items = pre ++ kv :: post ->
        Forall2 (fun kv t => Json.encode (JSONSerializer.converted (snd kv)) = Return t)
          pre texts ->
        Json.encode (JSONSerializer.converted (snd kv)) = Raise e ->
        JSONSerializer.serialize (PyDict items) = Raise e).
Proof.
  intros Hwf Hkeys.
  assert (Hser := serialize_dict items Hwf).
  split; [exact Hser|].
  split; [rewrite map_map; reflexivity|].
  split; [reflexivity|].
  split.
  - intros texts Henc. rewrite Hser. unfold Json.dumps.
    rewrite encode_dict_eq.
    rewrite (mapM_Return _ _ _ (members_Forall2 items texts Hkeys Henc)).
    reflexivity.
  - intros pre kv post texts e -> Hpre Hkv.
    rewrite Hser. unfold Json.dumps. rewrite encode_dict_eq.
    rewrite forallb_app in Hkeys. apply andb_true_iff in Hkeys as [Hkpre Hkpost].
    simpl in Hkpost. apply andb_true_iff in Hkpost as [Hk _].
    rewrite map_app. simpl.
    rewrite (mapM_Raise encode_member _ (converted_item kv) _ _ e
               (members_Forall2 pre texts Hkpre Hpre)); [reflexivity|].
    destruct kv as [k v]. destruct k; try discriminate.
    unfold encode_member, converted_item. simpl in *. rewrite Hkv. reflexivity.
Qed.

(** C10: for a mapping with a value that is not itself a native array and
    in which a native array occurs, the comprehension hands that value
    over as it is, and serialize raises the TypeError of the
    structured-text library. *)
Theorem nested_array_raises (items : list (pyval * pyval)) (k v : pyval) :
  dict_wf items = true ->
  In (k, v) items ->
  isinstance v ndarray_t = false ->
  has_ndarray v = true ->
  In (k, v) (JSONSerializer.comprehension items)
  /\ exists e,
       JSONSerializer.serialize (PyDict items) = Raise e
       /\ exc_cls e = TypeError.
Proof.
  intros Hwf Hin Hnot Hnested.
  assert (Hitem : In (k, v) (map converted_item items)).
  { apply in_map_iff. exists (k, v). split; [|exact Hin].
    unfold converted_item, JSONSerializer.converted. simpl. now rewrite Hnot. }
  split; [now rewrite comprehension_map|].
  assert (Hraise : exists e, Json.encode (PyDict (map converted_item items)) = Raise e).
  { rewrite encode_dict_eq.
    destruct (mapM_In_Raise encode_member _ _ Hitem) as [e He].
    - unfold encode_member. simpl.
      destruct (Json.key_text k) as [s|e]; simpl; [|eauto].
      destruct (encode_ndarray_Raise v Hnested) as [e He].
      rewrite He. simpl. eauto.
    - rewrite He. simpl. eauto. }
  destruct Hraise as [e He]. exists e. split.
  - rewrite serialize_dict by exact Hwf. unfold Json.dumps. now rewrite He.
  - exact (encode_TypeError _ _ He).
Qed.

(** C6, as stated, fails: the mapping has one string key, and serialize
    raises instead of returning an encoding. *)
Lemma dict_with_bytes_raises :
  dict_wf [(PyStr "a", PyBytes [Byte.x61])] = true
  /\ forallb is_str_key [(PyStr "a", PyBytes [Byte.x61])] = true
  /\ JSONSerializer.serialize (PyDict [(PyStr "a", PyBytes [Byte.x61])])
     = Raise (Exc TypeError "Object is not JSON serializable" (Some bytes_t)).
Proof.
  repeat split; reflexivity.
Qed.

Lemma dict_encoding_witness :
  dict_wf [(PyStr "a", PyNdarray (mk_ndarray int64 [2] [1; 2]%Z)); (PyStr "b", PyStr "x")]
  = true
  /\ JSONSerializer.serialize
       (PyDict [(PyStr "a", PyNdarray (mk_ndarray int64 [2] [1; 2]%Z));
                (PyStr "b", PyStr "x")])
     = Return (PyStr (json_object
                        [(PyStr "a", PyNdarray (mk_ndarray int64 [2] [1; 2]%Z));
                         (PyStr "b", PyStr "x")]
                        ["[1, 2]"; Json.encode_basestring_ascii "x"])).
Proof.
  split; [reflexivity|].
  apply (proj1 (proj2 (proj2 (proj2
           (dict_encoding
              [(PyStr "a", PyNdarray (mk_ndarray int64 [2] [1; 2]%Z));
               (PyStr "b", PyStr "x")] eq_refl eq_refl))))).
  repeat constructor.
Defined.

Lemma nested_array_raises_witness :
  In (PyStr "a", PyList [PyNdarray (mk_ndarray int64 [2] [1; 2]%Z)])
    (JSONSerializer.comprehension
       [(PyStr "a", PyList [PyNdarray (mk_ndarray int64 [2] [1; 2]%Z)])])
  /\ exists e,
       JSONSerializer.serialize
         (PyDict [(PyStr "a", PyList [PyNdarray (mk_ndarray int64 [2] [1; 2]%Z)])])
       = Raise e
       /\ exc_cls e = TypeError.
Proof.
  apply (nested_array_raises
           [(PyStr "a", PyList [PyNdarray (mk_ndarray int64 [2] [1; 2]%Z)])]
           (PyStr "a") (PyList [PyNdarray (mk_ndarray int64 [2] [1; 2]%Z)])).
  - reflexivity.
  - simpl. left. reflexivity.
  - reflexivity.
  - reflexivity.
Defined.

(** ** Scenarios *)

Example csv_string_verbatim :
  @CSVSerializer.serialize Sample.runtime (PyStr "abc") = Return (PyStr "abc").
Proof. reflexivity. Qed.

Example csv_one_row :
  @CSVSerializer.serialize Sample.runtime (PyList [PyInt 1; PyInt 2; PyInt 3])
  = Return (PyStr "1,2,3").
Proof. reflexivity. Qed.

Example csv_two_rows :
  @CSVSerializer.serialize Sample.runtime
    (PyList [PyList [PyInt 1; PyInt 2]; PyList [PyInt 3; PyInt 4]])
  = Return (PyStr ("1,2" ++ String Csv.LF "3,4")).
Proof. reflexivity. Qed.

Example csv_row_without_length :
  @CSVSerializer.serialize Sample.runtime (PyList [PyList [PyInt 1]; PyInt 3])
  = Raise (Exc ValueError "Unable to handle input format: " (Some int_t)).
Proof. reflexivity. Qed.

Example json_nested_lists :
  JSONSerializer.serialize (PyNdarray (mk_ndarray int64 [2; 2] [1; 2; 3; 4]%Z))
  = Return (PyStr "[[1, 2], [3, 4]]").
Proof. reflexivity. Qed.

(** * Further properties of the encoders *)

(** ** The tabular encoder: which inputs are one row *)

Section OneRow.
Context {RT : Runtime}.

(** A string is returned as it is, whatever it holds: no quoting, no
    stripping, also when it is empty. *)
Theorem csv_string_passthrough (s : string) :
  CSVSerializer.serialize (PyStr s) = Return (PyStr s).
Proof.
  destruct s as [|c s]; reflexivity.
Qed.

Lemma getitem_first (data : pyval) (n : nat) :
  hasattr data "__setitem__" = false ->
  len data = Return n -> 0 < n ->
  exists first, getitem data 0 = Return first.
Proof.
  intros Hset Hlen Hn.
  destruct data as [ | | |s|b|l|l|kvs|a| | ]; simpl in *; try discriminate.
  - destruct s; simpl in *; [injection Hlen as <-; lia|eauto].
  - destruct b; simpl in *; [injection Hlen as <-; lia|eauto].
  - destruct l; simpl in *; [injection Hlen as <-; lia|eauto].
Qed.

(** An input without indexed mutation (a tuple, a string, a byte string)
    is never taken for a table: it is encoded as one row, whatever its
    elements are. *)
Theorem csv_immutable_single_row (data : pyval) :
  hasattr data "__len__" = true ->
  hasattr data "__setitem__" = false ->
  CSVSerializer.serialize data
  = (row <- CSVSerializer._serialize_row data ;; Return (PyStr row)).
Proof.
  intros Hlen Hset.
  assert (Hread : hasattr data "read" = false)
    by (destruct data; simpl in *; try reflexivity; discriminate).
  assert (Hl : exists n, len data = Return n)
    by (destruct data; simpl in *; try discriminate; eauto).
  destruct Hl as [n Hl].
  unfold CSVSerializer.serialize. rewrite Hread, Hset, Hl, andb_false_r. simpl.
  destruct (Nat.ltb_spec 0 n) as [Hn|_]; [|reflexivity].
  destruct (getitem_first data n Hset Hl Hn) as [first ->]. reflexivity.
Qed.

End OneRow.

Lemma csv_immutable_single_row_witness :
  @CSVSerializer.serialize Sample.runtime
    (PyTuple [PyTuple [PyInt 1; PyInt 2]; PyTuple [PyInt 3]])
  = (row <- @CSVSerializer._serialize_row Sample.runtime
              (PyTuple [PyTuple [PyInt 1; PyInt 2]; PyTuple [PyInt 3]]) ;;
     Return (PyStr row)).
Proof.
  apply (@csv_immutable_single_row Sample.runtime
           (PyTuple [PyTuple [PyInt 1; PyInt 2]; PyTuple [PyInt 3]])); reflexivity.
Defined.

(** ** The tabular encoder: tables *)

Section Tables.
Context {RT : Runtime}.

Lemma mapM_strings (l : list string) :
  mapM CSVSerializer._serialize_row (map PyStr l) = Return l.
Proof.
  apply mapM_Return. induction l; simpl; constructor; auto.
Qed.

(** A list of strings that is not empty is a table whose rows are the
    strings: they are joined by newlines as they are, without quoting. *)
Theorem csv_list_of_strings (l : list string) :
  0 < List.length l ->
  CSVSerializer.serialize (PyList (map PyStr l))
  = Return (PyStr (Csv.join (String Csv.LF EmptyString) l)).
Proof.
  intros Hlen. destruct l as [|s l]; [simpl in Hlen; lia|].
  rewrite (serialize_rows (PyList (map PyStr (s :: l))) (PyStr s)
             (S (List.length l)) (map PyStr (s :: l)));
    try reflexivity; try lia.
  - rewrite mapM_strings. reflexivity.
  - simpl. now rewrite length_map.
Qed.

(** What the row encoder encodes is iterable and indexable. *)
Lemma row_Return_sequence_like (data : pyval) (s : string) :
  CSVSerializer._serialize_row data = Return s ->
  CSVSerializer._is_sequence_like data = true.
Proof.
  destruct data; simpl; intros Hrow; try discriminate; reflexivity.
Qed.

(** In a list taken for a table, an element that is not a string and has
    no length makes serialize raise the error that names the element's
    type, when the elements before it have an encoding. *)
Theorem csv_table_unsupported_row (pre post : list pyval) (x : pyval)
    (encoded : list string) :
  0 < List.length pre ->
  Forall2 (fun row s => CSVSerializer._serialize_row row = Return s) pre encoded ->
  isinstance x str_t = false ->
  hasattr x "__len__" = false ->
  CSVSerializer.serialize (PyList (pre ++ x :: post))
  = Raise (Exc ValueError "Unable to handle input format: " (Some (type x))).
Proof.
  intros Hlen Hpre Hstr Hx.
  destruct Hpre as [|p s pre encoded Hp Hpre]; [simpl in Hlen; lia|].
  rewrite (serialize_rows (PyList ((p :: pre) ++ x :: post)) p
             (S (List.length (pre ++ x :: post))) ((p :: pre) ++ x :: post));
    try reflexivity; try lia.
  - rewrite (mapM_Raise CSVSerializer._serialize_row (p :: pre) x post (s :: encoded)
               (Exc ValueError "Unable to handle input format: " (Some (type x)))).
    + reflexivity.
    + constructor; assumption.
    + now apply row_unsized_ValueError.
  - exact (row_Return_sequence_like p s Hp).
Qed.

End Tables.

Lemma csv_list_of_strings_witness :
  @CSVSerializer.serialize Sample.runtime (PyList (map PyStr ["a,b"; "c"]))
  = Return (PyStr (Csv.join (String Csv.LF EmptyString) ["a,b"; "c"])).
Proof.
  apply (@csv_list_of_strings Sample.runtime ["a,b"; "c"]). simpl. lia.
Defined.

Lemma csv_table_unsupported_row_witness :
  @CSVSerializer.serialize Sample.runtime
    (PyList ([PyList [PyInt 1; PyInt 2]] ++ PyInt 3 :: [PyList [PyInt 4]]))
  = Raise (Exc ValueError "Unable to handle input format: " (Some (type (PyInt 3)))).
Proof.
  apply (@csv_table_unsupported_row Sample.runtime
           [PyList [PyInt 1; PyInt 2]] [PyList [PyInt 4]] (PyInt 3) ["1,2"]).
  - simpl. lia.
  - repeat constructor.
  - reflexivity.
  - reflexivity.
Defined.

(** ** The tabular encoder: the text of a row and the errors *)

Lemma ends_in_app (chars a b : string) :
  ends_in chars (a ++ b)
  = match b with
    | EmptyString => ends_in chars a
    | String _ _ => ends_in chars b
    end.
Proof.
  induction a as [|c a IH].
  - destruct b; reflexivity.
  - change (String c a ++ b)%string with (String c (a ++ b)).
    destruct a as [|c' a'].
    + destruct b; reflexivity.
    + change (String c' a' ++ b)%string with (String c' (a' ++ b)) in *.
      change (ends_in chars (String c (String c' (a' ++ b))))
        with (ends_in chars (String c' (a' ++ b))).
      rewrite IH. reflexivity.
Qed.

Lemma quote_field_no_trailing (s : string) :
  ends_in Csv.lineterminator (Csv.quote_field s) = false.
Proof.
  unfold Csv.quote_field. destruct (Csv.has_special s) eqn:Hs.
  - change (String Csv.quotechar (Csv.double_quotes s ++ String Csv.quotechar EmptyString))
      with (String Csv.quotechar (Csv.double_quotes s)
            ++ String Csv.quotechar EmptyString)%string.
    rewrite ends_in_app. reflexivity.
  - now apply no_eol_ends_in, no_special_no_eol.
Qed.

Lemma concat_no_trailing (l : list string) :
  Forall (fun s => ends_in Csv.lineterminator s = false) l ->
  ends_in Csv.lineterminator (String.concat "," l) = false.
Proof.
  induction 1 as [|s l Hs Hl IH]; [reflexivity|].
  destruct l as [|s' l']; [exact Hs|].
  change (String.concat "," (s :: s' :: l'))
    with (s ++ String "," (String.concat "," (s' :: l')))%string.
  rewrite ends_in_app.
  destruct (String.concat "," (s' :: l')) as [|c t]; [reflexivity|exact IH].
Qed.

Section RowText.
Context {RT : Runtime}.

(** The record the writer makes of any fields does not end in a carriage
    return or newline: a field that holds one is quoted. *)
Lemma record_no_trailing (fields : list pyval) :
  ends_in Csv.lineterminator (Csv.record fields) = false.
Proof.
  unfold Csv.record.
  destruct ((0 <? List.length fields)%nat && _); [reflexivity|].
  apply concat_no_trailing. apply Forall_forall. intros s Hs.
  apply in_map_iff in Hs as [v [<- _]]. apply quote_field_no_trailing.
Qed.

Lemma writer_row (data : pyval) (fields : list pyval) :
  iter data = Return fields ->
  (csv_buffer <- Csv.writerow Csv.StringIO data ;;
   Return (Csv.rstrip Csv.lineterminator csv_buffer))
  = Return (Csv.record fields).
Proof.
  intros Hiter. unfold Csv.writerow. rewrite Hiter.
  change (Return (Csv.rstrip Csv.lineterminator
                    (Csv.record fields ++ Csv.lineterminator))
          = Return (Csv.record fields)).
  rewrite rstrip_terminator, rstrip_id by apply record_no_trailing.
  reflexivity.
Qed.

Lemma row_eq (data : pyval) :
  isinstance data str_t = false ->
  CSVSerializer._serialize_row data
  = if hasattr (row_input data) "__len__"
    then n <- len (row_input data) ;;
         if (n =? 0)%nat then Raise empty_array_error
         else csv_buffer <- Csv.writerow Csv.StringIO (row_input data) ;;
              Return (Csv.rstrip Csv.lineterminator csv_buffer)
    else Raise (Exc ValueError "Unable to handle input format: "
                  (Some (type (row_input data)))).
Proof.
  destruct data; intros Hstr; try discriminate; reflexivity.
Qed.

Lemma row_input_sized (data : pyval) :
  hasattr (row_input data) "__len__" = true ->
  exists n fields,
    len (row_input data) = Return n /\ iter (row_input data) = Return fields.
Proof.
  destruct data; simpl; intros Hlen; try discriminate; eauto.
Qed.

(** The text of a row is the record the writer made of the elements, and
    nothing but the line terminator was stripped from it: it does not end
    in a carriage return or newline. *)
Theorem csv_row_is_record (data : pyval) (s : string) :
  isinstance data str_t = false ->
  CSVSerializer._serialize_row data = Return s ->
  exists fields,
    iter (row_input data) = Return fields
    /\ s = Csv.record fields
    /\ ends_in Csv.lineterminator s = false.
Proof.
  intros Hstr Hrow. rewrite (row_eq data Hstr) in Hrow.
  destruct (hasattr (row_input data) "__len__") eqn:Hlen; [|discriminate].
  destruct (row_input_sized data Hlen) as [n [fields [Hn Hfields]]].
  rewrite Hn in Hrow. simpl in Hrow.
  destruct (n =? 0)%nat; [discriminate|].
  rewrite (writer_row _ _ Hfields) in Hrow. injection Hrow as <-.
  exists fields. auto using record_no_trailing.
Qed.


End RowText.

Lemma csv_row_is_record_witness :
  exists fields,
    iter (row_input (PyTuple [PyStr "a,b"; PyNone; PyInt 7])) = Return fields
    /\ String Csv.quotechar ("a,b" ++ String Csv.quotechar ",,7")%string
       = @Csv.record Sample.runtime fields
    /\ ends_in Csv.lineterminator
         (String Csv.quotechar ("a,b" ++ String Csv.quotechar ",,7")%string) = false.
Proof.
  apply (@csv_row_is_record Sample.runtime (PyTuple [PyStr "a,b"; PyNone; PyInt 7]));
    reflexivity.
Defined.

(** ** The tabular encoder: dictionaries and native arrays *)

Section Arrays.
Context {RT : Runtime}.

(** A dictionary is indexed at the key 0, not at its first item: without
    that key a dictionary that is not empty makes serialize raise the
    KeyError of the lookup. *)
Theorem csv_dict_without_key_0 (kvs : list (pyval * pyval)) :
  0 < List.length kvs ->
  dict_get kvs (PyInt 0) = None ->
  CSVSerializer.serialize (PyDict kvs) = Raise (Exc KeyError "key not found" None).
Proof.
  intros Hlen Hget. unfold CSVSerializer.serialize. simpl.
  destruct (Nat.ltb_spec 0 (List.length kvs)) as [_|Hle]; [|lia].
  rewrite Hget. reflexivity.
Qed.


End Arrays.

Lemma mapM_map_Return {A B C : Type} (f : B -> result C) (g : A -> B) (h : A -> C)
    (l : list A) :
  (forall x, In x l -> f (g x) = Return (h x)) ->
  mapM f (map g l) = Return (map h l).
Proof.
  intros Hl. apply mapM_Return. induction l as [|x l IH]; simpl; constructor.
  - apply Hl. simpl. auto.
  - apply IH. intros y Hy. apply Hl. simpl. auto.
Qed.



Section Matrices.
Context {RT : Runtime}.

Lemma row_empty_array (a : ndarray) :
  nd_size a = 0 ->
  CSVSerializer._serialize_row (PyNdarray a) = Raise empty_array_error.
Proof.
  intros Hsize. rewrite (row_eq (PyNdarray a) eq_refl).
  change (hasattr (row_input (PyNdarray a)) "__len__") with true.
  change (len (row_input (PyNdarray a))) with (@Return nat (nd_size a)).
  rewrite Hsize. reflexivity.
Qed.

(** A native array of size zero and of any shape of one dimension or more
    is rejected with the empty-array error, also when its first axis is not
    empty. *)
Theorem csv_empty_array_any_shape (a : ndarray) :
  nd_shape a <> [] ->
  nd_size a = 0 ->
  CSVSerializer.serialize (PyNdarray a) = Raise empty_array_error.
Proof.
  intros Hshape Hsize.
  destruct a as [d shape elems]. simpl in Hshape.
  destruct shape as [|n rest]; [contradiction|].
  destruct n as [|n]; [now apply serialize_empty|].
  assert (Hrest : prod_shape rest = 0).
  { unfold nd_size in Hsize. simpl in Hsize.
    apply Nat.eq_mul_0_r with (n := S n); [exact Hsize|discriminate]. }
  destruct rest as [|r rest]; [discriminate|].
  set (a := mk_ndarray d (S n :: r :: rest) elems).
  rewrite (serialize_rows (PyNdarray a) (nd_item a 0) (S n)
             (map (nd_item a) (seq 0 (S n))));
    try reflexivity; try lia.
  change (seq 0 (S n)) with (0 :: seq 1 n).
  rewrite map_cons, mapM_cons.
  unfold nd_item at 1. simpl nd_shape. cbv iota.
  rewrite row_empty_array by exact Hrest. reflexivity.
Qed.



End Matrices.

Lemma csv_dict_without_key_0_witness :
  @CSVSerializer.serialize Sample.runtime (PyDict [(PyStr "a", PyList [PyInt 1])])
  = Raise (Exc KeyError "key not found" None).
Proof.
  apply (@csv_dict_without_key_0 Sample.runtime [(PyStr "a", PyList [PyInt 1])]).
  - simpl. lia.
  - reflexivity.
Defined.


Lemma csv_empty_array_any_shape_witness :
  @CSVSerializer.serialize Sample.runtime (PyNdarray (mk_ndarray int64 [3; 0] []))
  = Raise empty_array_error.
Proof.
  apply (@csv_empty_array_any_shape Sample.runtime (mk_ndarray int64 [3; 0] [])).
  - discriminate.
  - reflexivity.
Defined.


(** ** The binary encoder *)

Section BinaryMore.
Context {RT : Runtime}.

(** The element type given at construction is used for a list only: for
    any other input, a native array included, two encoders that differ in
    it give the same result. *)
Theorem npy_dtype_only_for_lists (self self' : NumpySerializer.t) (data : pyval) :
  isinstance data list_t = false ->
  NumpySerializer.serialize self data = NumpySerializer.serialize self' data.
Proof.
  destruct data; intros Hlist; try discriminate; reflexivity.
Qed.

(** An error of the array constructor leaves serialize as it is, neither
    caught nor wrapped: for an input that is neither a native array, a
    stream nor the empty list, when the constructor (called with the
    encoder's element type for a list, without one otherwise) raises,
    serialize raises that very error. *)
Theorem npy_constructor_error_propagates (self : NumpySerializer.t) (data : pyval)
    (e : pyexc) :
  isinstance data ndarray_t = false ->
  hasattr data "read" = false ->
  data <> PyList [] ->
  np_array data (if isinstance data list_t
                 then NumpySerializer.dtype self else None) = Raise e ->
  NumpySerializer.serialize self data = Raise e.
Proof.
  intros Harr Hread Hne Hraise.
  destruct data as [ | | | | |l| | |a| | ]; simpl in *; try discriminate;
    try (rewrite Hraise; reflexivity).
  destruct l as [|x l]; [contradiction|]. simpl. rewrite Hraise. reflexivity.
Qed.

End BinaryMore.

Lemma npy_dtype_only_for_lists_witness :
  @NumpySerializer.serialize Sample.runtime (NumpySerializer.new (Some "float32"))
    (PyNdarray (mk_ndarray int64 [2] [1; 2]%Z))
  = @NumpySerializer.serialize Sample.runtime (NumpySerializer.new None)
      (PyNdarray (mk_ndarray int64 [2] [1; 2]%Z)).
Proof.
  apply (@npy_dtype_only_for_lists Sample.runtime). reflexivity.
Defined.

Lemma npy_constructor_error_propagates_witness :
  @NumpySerializer.serialize Sample.runtime (NumpySerializer.new (Some "int32"))
    (PyList [PyStr "a"; PyInt 1])
  = Raise (Exc ValueError "unsupported array contents" None).
Proof.
  apply (@npy_constructor_error_propagates Sample.runtime
           (NumpySerializer.new (Some "int32")) (PyList [PyStr "a"; PyInt 1])).
  - reflexivity.
  - reflexivity.
  - discriminate.
  - reflexivity.
Defined.

(** ** The structured-text encoder *)

Lemma encode_tolist (shape : list nat) :
  forall elems, Json.encode (tolist_aux shape elems) = Return (nested_text shape elems).
Proof.
  induction shape as [|n rest IH]; intros elems; [reflexivity|].
  change (tolist_aux (n :: rest) elems)
    with (PyList (map (fun i => tolist_aux rest (nd_block rest elems i)) (seq 0 n))).
  rewrite encode_list_eq.
  rewrite (mapM_map_Return Json.encode _
             (fun i => nested_text rest (nd_block rest elems i))).
  - reflexivity.
  - intros i _. apply IH.
Qed.

(** A native array of an integer element type (every [ndarray] of this
    development: [dtype] has no other) has an encoding: the structured
    text of its nested lists of ints, row-major, for every shape, the empty
    ones and the one without dimension included; serialize does not raise
    on it.  Arrays of other element types, whose [tolist()] may hold values
    the library rejects, are not covered. *)
Theorem json_array_nested_text (a : ndarray) :
  JSONSerializer.serialize (PyNdarray a)
  = Return (PyStr (nested_text (nd_shape a) (nd_data a))).
Proof.
  unfold JSONSerializer.serialize. simpl. unfold Json.dumps, nd_tolist.
  rewrite encode_tolist. reflexivity.
Qed.

(** A mapping with string keys whose values are all native arrays of an
    integer element type has an encoding: the object with the keys in
    their order and the nested-list text of each array. *)
Theorem json_dict_of_arrays (items : list (pyval * pyval)) :
  dict_wf items = true ->
  forallb is_str_key items = true ->
  forallb (fun kv => isinstance (snd kv) ndarray_t) items = true ->
  JSONSerializer.serialize (PyDict items)
  = Return (PyStr (json_object items (map (fun kv => array_text (snd kv)) items))).
Proof.
  intros Hwf Hkeys Harrays.
  assert (Henc : Forall2 (fun kv t => Json.encode (JSONSerializer.converted (snd kv))
                                      = Return t)
                   items (map (fun kv => array_text (snd kv)) items)).
  { clear Hwf Hkeys. induction items as [|[k v] items IH]; simpl; constructor.
    - simpl in Harrays. apply andb_true_iff in Harrays as [Hv _].
      destruct v; try discriminate. simpl.
      unfold JSONSerializer.converted. simpl. apply encode_tolist.
    - apply IH. simpl in Harrays. now apply andb_true_iff in Harrays as [_ Hrest]. }
  rewrite serialize_dict by exact Hwf. unfold Json.dumps.
  rewrite encode_dict_eq.
  rewrite (mapM_Return _ _ _ (members_Forall2 items _ Hkeys Henc)).
  reflexivity.
Qed.

Lemma json_dict_of_arrays_witness :
  JSONSerializer.serialize
    (PyDict [(PyStr "x", PyNdarray (mk_ndarray int64 [2] [1; 2]%Z));
             (PyStr "y", PyNdarray (mk_ndarray int64 [0] []))])
  = Return (PyStr (json_object
                     [(PyStr "x", PyNdarray (mk_ndarray int64 [2] [1; 2]%Z));
                      (PyStr "y", PyNdarray (mk_ndarray int64 [0] []))]
                     ["[1, 2]"; "[]"])).
Proof.
  apply (json_dict_of_arrays
           [(PyStr "x", PyNdarray (mk_ndarray int64 [2] [1; 2]%Z));
            (PyStr "y", PyNdarray (mk_ndarray int64 [0] []))]); reflexivity.
Defined.

(** ** The characters of a structured-text payload *)

Lemma printable_app (a b : string) :
  printable (a ++ b) = printable a && printable b.
Proof.
  induction a as [|c a IH]; simpl; [reflexivity|].
  rewrite IH. apply andb_assoc.
Qed.

Lemma printable_concat (sep : string) (l : list string) :
  printable sep = true ->
  Forall (fun s => printable s = true) l ->
  printable (String.concat sep l) = true.
Proof.
  intros Hsep. induction 1 as [|s l Hs Hl IH]; [reflexivity|].
  destruct l as [|s' l']; [exact Hs|].
  change (String.concat sep (s :: s' :: l'))
    with (s ++ sep ++ String.concat sep (s' :: l'))%string.
  rewrite !printable_app, Hs, Hsep, IH. reflexivity.
Qed.

Lemma printable_wrap (o c s : string) :
  printable o = true -> printable c = true -> printable s = true ->
  printable (o ++ s ++ c) = true.
Proof.
  intros Ho Hc Hs. now rewrite !printable_app, Ho, Hs, Hc.
Qed.

Lemma printable_uint (d : uint) : printable (NilEmpty.string_of_uint d) = true.
Proof.
  induction d; simpl; auto.
Qed.

Lemma printable_str_int (z : Z) : printable (str_int z) = true.
Proof.
  unfold str_int, NilZero.string_of_int.
  destruct (Z.to_int z) as [d|d]; destruct d; simpl; auto using printable_uint.
Qed.

Lemma printable_escape_char (c : ascii) : printable (Json.escape_char c) = true.
Proof.
  destruct c as [[] [] [] [] [] [] [] []]; reflexivity.
Qed.

(** A string is written with nothing but printable ASCII, whatever it
    holds. *)
Lemma printable_basestring (s : string) :
  printable (Json.encode_basestring_ascii s) = true.
Proof.
  unfold Json.encode_basestring_ascii.
  change (String Json.quote (Json.escape s ++ String Json.quote EmptyString))
    with (String Json.quote EmptyString
          ++ Json.escape s ++ String Json.quote EmptyString)%string.
  rewrite !printable_app.
  assert (Hesc : printable (Json.escape s) = true).
  { induction s as [|c s IH]; [reflexivity|].
    simpl. now rewrite printable_app, printable_escape_char. }
  rewrite Hesc. reflexivity.
Qed.

Lemma bind_Return_inv {A B : Type} (c : result A) (k : A -> result B) (b : B) :
  bind c k = Return b -> exists a, c = Return a /\ k a = Return b.
Proof.
  destruct c as [a|e]; simpl; [eauto|discriminate].
Qed.

Lemma encode_sequence_printable (l : list pyval) (s : string) :
  Forall (fun v => forall s, Json.encode v = Return s -> printable s = true) l ->
  (chunks <- mapM Json.encode l ;;
   Return ("[" ++ String.concat ", " chunks ++ "]")%string) = Return s ->
  printable s = true.
Proof.
  intros IH Hs.
  apply bind_Return_inv in Hs as [chunks [Hchunks Hs]]. injection Hs as <-.
  apply mapM_inv in Hchunks.
  apply (printable_wrap "[" "]"); [reflexivity|reflexivity|].
  apply printable_concat; [reflexivity|].
  clear - IH Hchunks.
  induction Hchunks as [|v t l chunks Hv _ IHl]; constructor.
  - exact (Forall_inv IH t Hv).
  - apply IHl. exact (Forall_inv_tail IH).
Qed.

(** Whatever the library encodes, the text holds printable ASCII only. *)
Lemma encode_printable (v : pyval) :
  forall s, Json.encode v = Return s -> printable s = true.
Proof.
  revert v.
  apply (pyval_nested_ind
           (fun v => forall s, Json.encode v = Return s -> printable s = true));
    [intros v|intros l IH|intros l IH|intros kvs IH|intros c _].
  - destruct v as [ |b|z|t| | | | | | | ]; trivial; simpl; intros s Hs;
      try discriminate.
    + injection Hs as <-. reflexivity.
    + destruct b; injection Hs as <-; reflexivity.
    + injection Hs as <-. apply printable_str_int.
    + injection Hs as <-. apply printable_basestring.
  - intros s Hs. rewrite encode_list_eq in Hs.
    exact (encode_sequence_printable l s IH Hs).
  - intros s Hs. rewrite encode_tuple_eq in Hs.
    exact (encode_sequence_printable l s IH Hs).
  - intros s Hs. rewrite encode_dict_eq in Hs.
    apply bind_Return_inv in Hs as [chunks [Hchunks Hs]]. injection Hs as <-.
    apply mapM_inv in Hchunks.
    apply (printable_wrap "{" "}"); [reflexivity|reflexivity|].
    apply printable_concat; [reflexivity|].
    clear - IH Hchunks.
    induction Hchunks as [|kv t l chunks Hkv _ IHl]; constructor.
    + unfold encode_member in Hkv.
      apply bind_Return_inv in Hkv as [k [_ Hkv]].
      apply bind_Return_inv in Hkv as [vt [Hvt Hkv]]. injection Hkv as <-.
      apply (printable_wrap _ vt ": ");
        [apply printable_basestring|exact (Forall_inv IH vt Hvt)|reflexivity].
    + apply IHl. exact (Forall_inv_tail IH).
  - intros s Hs. discriminate.
Qed.

(** The payload the structured-text encoder returns for an input that is
    not a stream is a string of printable ASCII: no control character, no
    newline and no character above the tilde reaches it unescaped. *)
Theorem json_payload_printable (data payload : pyval) :
  hasattr data "read" = false ->
  JSONSerializer.serialize data = Return payload ->
  exists s, payload = PyStr s /\ printable s = true.
Proof.
  intros Hread Hser.
  assert (Hdumps : forall v, Json.dumps v = Return payload ->
                             exists s, payload = PyStr s /\ printable s = true).
  { intros v Hv. unfold Json.dumps in Hv.
    apply bind_Return_inv in Hv as [s [Hs Hv]]. injection Hv as <-.
    exists s. split; [reflexivity|]. exact (encode_printable v s Hs). }
  destruct data; simpl in Hread, Hser; try discriminate; eauto.
Qed.

Lemma json_payload_printable_witness :
  exists s,
    PyStr (String Json.quote
             ("caf" ++ String Json.backslash ("u00e9" ++ String Json.quote EmptyString)))
    = PyStr s
    /\ printable s = true.
Proof.
  apply (json_payload_printable (PyStr ("caf" ++ String (ascii_of_nat 233) EmptyString))).
  - reflexivity.
  - reflexivity.
Defined.
